(** * Monday -> Nozbe importer: a shallow embedding of
      [src/ntimporters/monday/importer.py] and the properties of its
      import pipeline.

    The Python code is effectful: it talks to two remote services and
    may raise.  It is embedded in a small state-and-exception monad
    whose state is the trace of the calls issued so far; the remote
    services, the helpers of [ntimporters.utils] and the library
    functions the importer calls are collected in a record of oracles
    ([Env]).  Every oracle sees the trace, so an answer may depend on
    everything that happened before. *)

From Stdlib Require Import QArith DecimalString.
From stdpp Require Import gmap strings list pretty sorting.

Set Warnings "-register-all".
Local Open Scope string_scope.
Local Open Scope Z_scope.
Local Open Scope list_scope.

(** ** Python values *)

(** Python's [float], with the few operations the importer applies to
    it.  The type is kept abstract: the importer only builds floats
    with [float(...)], from the literal [1.0], and tests their truth. *)
Class PyFloat := {
  float : Type;
  float_one : float;                          (* the literal [1.0]            *)
  float_truthy : float -> bool;               (* [bool(f)], i.e. [f != 0.0]   *)
  float_of_int : Z -> option float;           (* [float(n)]; [None] = OverflowError *)
  float_of_string : string -> option float;   (* [float(s)]; [None] = ValueError    *)
  float_key : float -> Z + N                  (* the class of [f] as a dict key:
                                                 [inl n] when [f == n] for the
                                                 integer [n], else a code of [f] *)
}.

(** The classes of [openapi_client.models] the importer instantiates
    around a single value. *)
Inductive model_ty :=
  | Id16ReadOnly | Id16 | Id16Nullable | NameAllowEmpty | Name
  | TimestampReadOnly | TimestampNullable | ProjectId.

Section Values.
Context `{PyFloat}.

(** Values found in the loosely typed source records (decoded JSON)
    and in the answers of the destination service. *)
Inductive pyval :=
  | PNone
  | PBool (b : bool)
  | PInt (n : Z)
  | PFloat (f : float)
  | PStr (s : string)
  | PList (l : list pyval)
  | PDict (d : list (string * pyval)).

(** A field of a destination model: a plain value, or a value wrapped
    in one of the [models] classes, as in [models.Id16(team_id)]. *)
Inductive mval :=
  | MRaw (v : pyval)
  | MWrap (ty : model_ty) (v : pyval).

(** [bool(v)] *)
Definition py_truthy (v : pyval) : bool :=
  match v with
  | PNone => false
  | PBool b => b
  | PInt n => negb (Z.eqb n 0)
  | PFloat f => float_truthy f
  | PStr s => negb (String.eqb s "")
  | PList l => match l with [] => false | _ => true end
  | PDict d => match d with [] => false | _ => true end
  end.

(** [a or b] *)
Definition py_or (a b : pyval) : pyval := if py_truthy a then a else b.

(** [v == "s"] for a string literal [s] *)
Definition py_eq_str (v : pyval) (s : string) : bool :=
  match v with PStr t => String.eqb t s | _ => false end.

(** A dictionary-like object: source records and destination entities
    are read with [.get(key)], which yields [None] for a missing key. *)
Definition record := gmap string pyval.

Definition get (r : record) (k : string) : pyval := default PNone (r !! k).

(** [hasattr(r, k)] *)
Definition hasattr (r : record) (k : string) : bool := bool_decide (is_Some (r !! k)).

(** ** Exceptions *)

Inductive exn :=
  | ImportException (msg : string)     (* ntimporters.utils.ImportException   *)
  | OpenApiException (msg : string)    (* openapi_client.exceptions           *)
  | ValueError
  | TypeError
  | OverflowError
  | OtherError (name : string).

(** The handler of [run_import]: [except (ImportException, OpenApiException)]. *)
Definition handled (e : exn) : bool :=
  match e with
  | ImportException _ | OpenApiException _ => true
  | _ => false
  end.

(** [float(v)] *)
Definition py_float (v : pyval) : exn + float :=
  match v with
  | PFloat f => inr f
  | PInt n => match float_of_int n with Some f => inr f | None => inl OverflowError end
  | PBool b => match float_of_int (Z.b2z b) with Some f => inr f | None => inl OverflowError end
  | PStr s => match float_of_string s with Some f => inr f | None => inl ValueError end
  | PNone | PList _ | PDict _ => inl TypeError
  end.

(** Keys of a Python [dict].  [True], [1] and [1.0] are one key;
    lists and dicts are unhashable. *)
Inductive pykey :=
  | KNone
  | KInt (n : Z)
  | KStr (s : string)
  | KFloat (code : N).

Definition py_key (v : pyval) : option pykey :=
  match v with
  | PNone => Some KNone
  | PBool b => Some (KInt (Z.b2z b))
  | PInt n => Some (KInt n)
  | PFloat f => Some (match float_key f with inl n => KInt n | inr c => KFloat c end)
  | PStr s => Some (KStr s)
  | PList _ | PDict _ => None
  end.

(** ** Destination models

    The keyword arguments of the [models.*] constructors, with their
    Python names.  [models.ProjectSection] receives its first four
    arguments by position: id, project id, name, creation time. *)

Record Project := {
  project_id : mval;
  project_name : mval;
  project_team_id : mval;
  project_author_id : mval;
  project_created_at : mval;
  project_last_event_at : mval;
  project_ended_at : mval;
  project_description : mval;
  project_is_open : mval;
  project_extra : mval
}.

Record ProjectSection := {
  section_id : mval;
  section_project_id : mval;
  section_name : mval;
  section_created_at : mval;
  section_archived_at : mval;
  section_position : mval
}.

Record Task := {
  task_id : mval;
  task_name : mval;
  task_project_id : mval;
  task_author_id : mval;
  task_created_at : mval;
  task_last_activity_at : mval;
  task_project_section_id : mval;
  task_project_position : mval;
  task_due_at : mval;
  task_responsible_id : mval
}.

Record Comment := {
  comment_id : mval;
  comment_body : mval;
  comment_task_id : mval;
  comment_created_at : mval;
  comment_author_id : mval;
  comment_extra : mval
}.

(** ** Calls and traces

    One event per call that leaves the importer, in the order of the
    calls, each with what the call gave back ([inl e]: it raised [e]).
    A model in a [Post*] event is the argument of [strip_readonly]:
    the service receives it without its read-only fields. *)

Definition answer (A : Type) : Type := exn + A.

Inductive event :=
  | NewApiClient (host api_key : string)
  | NewMondayClient (app_key : string)
  | NtLimits (team_id : string) (r : answer (string -> Z))
  | CurrentNtMember (r : answer pyval)
  | MondayProjects (r : answer (list record))
  | ProjectsPerTeam (team_id : string) (r : answer (list record))
  | CheckLimits (category : string) (count : Z) (r : answer unit)
  | PostProject (m : Project) (r : answer (option record))
  | MondaySections (project : pyval) (r : answer (list record))
  | PostProjectSection (m : ProjectSection) (r : answer (option record))
  | MondayTasks (project : pyval) (r : answer (list record))
  | PostTask (m : Task) (r : answer (option pyval))
  | MondayComments (task : pyval) (r : answer (list record))
  | PostComment (m : Comment) (r : answer unit).

Definition trace := list event.

(** The collaborators.  A destination creation call answers [None]
    for a falsy result and [Some o] for the created entity [o];
    [post_task] answers the [id] attribute of the created task. *)
Record Env := {
  id16 : nat -> string;                          (* the n-th identifier drawn *)
  nt_limits : trace -> string -> answer (string -> Z);
  current_nt_member : trace -> answer pyval;
  get_projects_per_team : trace -> string -> answer (list record);
  monday_projects : trace -> answer (list record);
  monday_sections : trace -> pyval -> answer (list record);
  monday_tasks : trace -> pyval -> answer (list record);
  monday_comments : trace -> pyval -> answer (list record);
  post_project : trace -> Project -> answer (option record);
  post_project_section : trace -> ProjectSection -> answer (option record);
  post_task : trace -> Task -> answer (option pyval);
  post_comment : trace -> Comment -> answer unit;
  isoparse_timestamp : pyval -> answer Q;        (* [isoparse(v).timestamp()] *)
  py_repr : pyval -> string                      (* [str(v)] of numbers and containers *)
}.

(** [str(v)] *)
Definition py_str (env : Env) (v : pyval) : string :=
  match v with
  | PNone => "None"
  | PBool true => "True"
  | PBool false => "False"
  | PStr s => s
  | _ => py_repr env v
  end.

(** ** The monad: a trace, a count of identifiers drawn, and exceptions *)

Record state := { calls : trace; drawn : nat }.

Definition M (A : Type) : Type := state -> answer A * state.

Definition ret {A} (a : A) : M A := fun st => (inr a, st).

Definition raise {A} (e : exn) : M A := fun st => (inl e, st).

Definition bind {A B} (m : M A) (k : A -> M B) : M B :=
  fun st => match m st with
            | (inr a, st') => k a st'
            | (inl e, st') => (inl e, st')
            end.

(** A value that may be an exception, lifted. *)
Definition lift {A} (r : answer A) : M A := fun st => (r, st).

(** A call: ask the oracle, log the call with its answer. *)
Definition call {A} (o : trace -> answer A) (ev : answer A -> event) : M A :=
  fun st => let r := o (calls st) in
            (r, {| calls := calls st ++ [ev r]; drawn := drawn st |}).

(** A constructor call: logged, never fails. *)
Definition construct (ev : event) : M unit :=
  fun st => (inr tt, {| calls := calls st ++ [ev]; drawn := drawn st |}).

(** [id16()] *)
Definition new_id (env : Env) : M pyval :=
  fun st => (inr (PStr (id16 env (drawn st))),
             {| calls := calls st; drawn := S (drawn st) |}).

(** [for x in l: body x] *)
Fixpoint for_each {A} (l : list A) (body : A -> M unit) : M unit :=
  match l with
  | [] => ret tt
  | x :: l' => bind (body x) (fun _ => for_each l' body)
  end.

End Values.

#[global] Instance M_ret `{PyFloat} : MRet M := @ret _.
#[global] Instance M_bind `{PyFloat} : MBind M := fun A B k m => bind m k.

(** ** Dictionaries keyed by Python values *)

#[global] Instance pykey_eq_dec : EqDecision pykey.
Proof. solve_decision. Defined.

#[global] Instance pykey_countable : Countable pykey.
Proof.
  refine (inj_countable'
    (fun k => match k with
              | KNone => inl (inl tt)
              | KInt n => inl (inr n)
              | KStr s => inr (inl s)
              | KFloat c => inr (inr c)
              end)
    (fun x => match x with
              | inl (inl _) => KNone
              | inl (inr n) => KInt n
              | inr (inl s) => KStr s
              | inr (inr c) => KFloat c
              end) _).
  intros []; reflexivity.
Defined.

Section Pipeline.
Context `{PyFloat}.

(** [d[k] = v]: [TypeError] on an unhashable key. *)
Definition dict_set (d : gmap pykey string) (k : pyval) (v : string)
  : answer (gmap pykey string) :=
  match py_key k with
  | Some key => inr (<[key := v]> d)
  | None => inl TypeError
  end.

(** [d.get(k)]: [None] for a missing key, [TypeError] on an unhashable one. *)
Definition dict_get (d : gmap pykey string) (k : pyval) : answer pyval :=
  match py_key k with
  | Some key => inr (match d !! key with Some v => PStr v | None => PNone end)
  | None => inl TypeError
  end.

(** ** [sorted(l, key=f)]

    Python's sort is stable and compares keys with [<] only.  It is
    embedded as the stable insertion sort on the list decorated with
    its keys, which are computed first, once per element, in order. *)

Fixpoint insert_by {A} (lt : A -> A -> bool) (x : A) (l : list A) : list A :=
  match l with
  | [] => [x]
  | y :: l' => if lt y x then y :: insert_by lt x l' else x :: y :: l'
  end.

Definition sort_by {A} (lt : A -> A -> bool) (l : list A) : list A :=
  foldr (insert_by lt) [] l.

Fixpoint decorate {A K} (key : A -> answer K) (l : list A) : answer (list (K * A)) :=
  match l with
  | [] => inr []
  | x :: l' =>
      match key x with
      | inl e => inl e
      | inr k => match decorate key l' with
                 | inl e => inl e
                 | inr d => inr ((k, x) :: d)
                 end
      end
  end.

(** [a < b] on the rationals that two finite floats denote. *)
Definition Qltb (a b : Q) : bool := negb (Qle_bool b a).

Definition key_lt {A} (a b : Q * A) : bool := Qltb a.1 b.1.

Definition py_sorted {A} (key : A -> answer Q) (l : list A) : answer (list A) :=
  match decorate key l with
  | inl e => inl e
  | inr d => inr (sort_by key_lt d).*2
  end.

(** ** Helpers of [ntimporters.utils] *)

(** Modelled from the spec: [check_limits] is defined in
    [ntimporters/utils.py], which is not among the sources.  Section
    4.2: it fails with QuotaExceeded when the projected count is
    greater than the cap of the category, and has no other effect;
    section 7: the message names the category and the limit.  The
    importer knows one exception class of its own, [ImportException]. *)
Definition QuotaExceeded (category : string) (cap : Z) : exn :=
  ImportException (category +:+ " limit exceeded: " +:+ pretty cap).

Definition check_limits (limits : string -> Z) (category : string) (count : Z)
  : answer unit :=
  if limits category <? count then inl (QuotaExceeded category (limits category))
  else inr tt.

(** ** The importer *)

Record spec := { code : string; name : string; url : string; input_fields : list string }.

Definition SPEC : spec := {|
  code := "monday";
  name := "Monday";
  url := "https://api.developer.monday.com/docs/authentication";
  input_fields := ["team_id"; "nt_auth_token"; "app_key"]
|}.

Context (env : Env).

(** *** [_import_comments] *)

(** The [models.Comment(...)] expression; [i], [a] are the two
    identifiers drawn for it. *)
Definition comment_model (nt_task_id : string) (comment : record) (i a : pyval) : Comment := {|
  comment_id := MWrap Id16ReadOnly i;
  comment_body := MRaw (get comment "text_body");
  comment_task_id := MWrap Id16 (PStr nt_task_id);
  comment_created_at := MWrap TimestampReadOnly (PInt 1);
  comment_author_id := MWrap Id16ReadOnly a;
  comment_extra := MRaw (PStr "")
|}.

Definition created_at_key (elt : record) : answer Q :=
  isoparse_timestamp env (get elt "created_at").

Definition import_comment (nt_task_id : string) (comment : record) : M unit :=
  i ← new_id env;
  a ← new_id env;
  let m := comment_model nt_task_id comment i a in
  call (fun tr => post_comment env tr m) (PostComment m).

Definition _import_comments (nt_task_id : string) (tr_task_id : pyval) : M unit :=
  comments ← call (fun tr => monday_comments env tr tr_task_id) (MondayComments tr_task_id);
  ordered ← lift (py_sorted created_at_key comments);
  for_each ordered (import_comment nt_task_id).

(** *** [_import_tasks] *)

(** The two assignments and the [if due_at:] block before the model
    is built: the pair [(due_at, responsible_id)]. *)
Definition task_due (task : record) (author_id : pyval) : mval * pyval :=
  let due_at := get task "due_at" in
  if py_truthy due_at
  then (if py_truthy due_at then MWrap TimestampNullable due_at else MRaw PNone, author_id)
  else (MRaw due_at, PNone).

(** The [models.Task(...)] expression; [sec] is
    [sections_mapping.get(task.get("group"))]. *)
Definition task_model (nt_project_id : string) (author_id : pyval)
    (task : record) (i a sec : pyval) : Task :=
  let '(due_at, responsible_id) := task_due task author_id in {|
  task_id := MWrap Id16ReadOnly i;
  task_name := MWrap Name (get task "name");
  task_project_id := MWrap ProjectId (PStr nt_project_id);
  task_author_id := MWrap Id16ReadOnly a;
  task_created_at := MWrap TimestampReadOnly (PInt 1);
  task_last_activity_at := MWrap TimestampReadOnly (PInt 1);
  task_project_section_id := MWrap Id16Nullable sec;
  task_project_position := MRaw (PFloat float_one);
  task_due_at := due_at;
  task_responsible_id := MWrap Id16Nullable responsible_id
|}.

Definition import_task (sections_mapping : gmap pykey string)
    (nt_project_id : string) (author_id : pyval) (task : record) : M unit :=
  i ← new_id env;
  a ← new_id env;
  sec ← lift (dict_get sections_mapping (get task "group"));
  let m := task_model nt_project_id author_id task i a sec in
  nt_task ← call (fun tr => post_task env tr m) (PostTask m);
  match nt_task with
  | Some nt_task_id => _import_comments (py_str env nt_task_id) (get task "id")
  | None => mret tt
  end.

Definition _import_tasks (sections_mapping : gmap pykey string)
    (m_project_id : pyval) (nt_project_id : string) (author_id : pyval) : M unit :=
  tasks ← call (fun tr => monday_tasks env tr m_project_id) (MondayTasks m_project_id);
  for_each tasks (import_task sections_mapping nt_project_id author_id).

(** *** [_import_project_sections] *)

(** The nested [_parse_timestamp] is never called in the module and
    has no counterpart here. *)

(** The [models.ProjectSection(...)] expression; it raises when
    [float(...)] does. *)
Definition section_model (nt_project_id : string) (section : record) (i : pyval)
  : answer ProjectSection :=
  match py_float (py_or (get section "position") (PFloat float_one)) with
  | inl e => inl e
  | inr position => inr {|
      section_id := MWrap Id16ReadOnly i;
      section_project_id := MWrap Id16 (PStr nt_project_id);
      section_name := MWrap Name (get section "title");
      section_created_at := MWrap TimestampReadOnly (PInt 1);
      section_archived_at :=
        if py_truthy (get section "archived")
        then MWrap TimestampReadOnly (PInt 1) else MRaw PNone;
      section_position := MRaw (PFloat position)
    |}
  end.

(** One turn of the loop over the sections: the dictionary it leaves. *)
Definition import_section (nt_project_id : string)
    (sections_mapping : gmap pykey string) (section : record)
  : M (gmap pykey string) :=
  i ← new_id env;
  m ← lift (section_model nt_project_id section i);
  nt_section ← call (fun tr => post_project_section env tr m) (PostProjectSection m);
  match nt_section with
  | Some o => lift (dict_set sections_mapping (get section "id") (py_str env (get o "id")))
  | None => mret sections_mapping
  end.

Fixpoint import_sections (nt_project_id : string) (sections : list record)
    (sections_mapping : gmap pykey string) : M (gmap pykey string) :=
  match sections with
  | [] => mret sections_mapping
  | section :: rest =>
      d ← import_section nt_project_id sections_mapping section;
      import_sections nt_project_id rest d
  end.

Definition _import_project_sections (nt_project_id : string) (project : record)
    (limits : string -> Z) (curr_member : pyval) : M unit :=
  monday_sections ← call (fun tr => monday_sections env tr (get project "id"))
                         (MondaySections (get project "id"));
  (let n := Z.of_nat (length monday_sections) in
   call (fun _ => check_limits limits "project_sections" n)
        (CheckLimits "project_sections" n));;
  sections_mapping ← import_sections nt_project_id monday_sections ∅;
  _import_tasks sections_mapping (get project "id") nt_project_id curr_member.

(** *** [_import_data] *)

(** [x in ("archived", "deleted")] *)
Definition in_archived_deleted (v : pyval) : bool :=
  py_eq_str v "archived" || py_eq_str v "deleted".

(** The [models.Project(...)] expression. *)
Definition project_model (team_id : string) (project : record) (i a : pyval) : Project := {|
  project_id := MWrap Id16ReadOnly i;
  project_name := MWrap NameAllowEmpty (get project "name");
  project_team_id := MWrap Id16 (PStr team_id);
  project_author_id := MWrap Id16ReadOnly a;
  project_created_at := MWrap TimestampReadOnly (PInt 1);
  project_last_event_at := MWrap TimestampReadOnly (PInt 1);
  project_ended_at :=
    if in_archived_deleted (get project "state")
    then MWrap TimestampNullable (PInt 1) else MRaw PNone;
  project_description := MRaw (get project "description");
  project_is_open := MRaw (PBool (py_eq_str (get project "board_kind") "public"));
  project_extra := MRaw (PStr "")
|}.

Definition _import_project (team_id : string) (limits : string -> Z)
    (project : record) (curr_member : pyval) : M unit :=
  i ← new_id env;
  a ← new_id env;
  let project_model := project_model team_id project i a in
  r ← call (fun tr => post_project env tr project_model) (PostProject project_model);
  let nt_project := default ∅ r in
  let nt_project_id := py_str env (get nt_project "id") in
  if String.eqb nt_project_id "" then mret tt
  else _import_project_sections nt_project_id project limits curr_member.

(** The condition of the comprehension over [nt_projects]. *)
Definition counts_as_open (elt : record) : bool :=
  py_truthy (get elt "is_open")
  && (negb (hasattr elt "ended_at") || negb (py_truthy (get elt "ended_at"))).

(** [sum(l)] of a list of booleans *)
Definition py_sum (l : list bool) : Z := foldr (fun b acc => Z.b2z b + acc) 0 l.

Definition projects_open_count (monday_projects nt_projects : list record) : Z :=
  let monday_projects_open :=
    (fun elt => get elt "id") <$>
      filter (fun elt => py_eq_str (get elt "board_kind") "public" = true) monday_projects in
  Z.of_nat (length monday_projects_open)
  + py_sum ((fun _ => true) <$> filter (fun elt => counts_as_open elt = true) nt_projects).

Definition _import_data (team_id : string) : M unit :=
  limits ← call (fun tr => nt_limits env tr team_id) (NtLimits team_id);
  curr_member ← call (current_nt_member env) CurrentNtMember;
  monday_projects ← call (monday_projects env) MondayProjects;
  nt_projects ← call (fun tr => get_projects_per_team env tr team_id) (ProjectsPerTeam team_id);
  (let n := projects_open_count monday_projects nt_projects in
   call (fun _ => check_limits limits "projects_open" n) (CheckLimits "projects_open" n));;
  for_each monday_projects (fun project => _import_project team_id limits project curr_member).

(** *** [run_import] *)

(** What [run_import] hands back: [None], a message, or the exception
    it caught.  An exception that leaves [run_import] is the [inl] of
    the monad. *)
Inductive returned :=
  | RetNone
  | RetStr (s : string)
  | RetExc (e : exn).

(** [try: m] with the handler [except (ImportException, OpenApiException)
    as exc]: the exception caught, if any. *)
Definition try_except (m : M unit) : M (option exn) :=
  fun st => match m st with
            | (inr _, st') => (inr None, st')
            | (inl e, st') => if handled e then (inr (Some e), st') else (inl e, st')
            end.

Definition run_import (nt_auth_token app_key team_id : string) : M returned :=
  if String.eqb nt_auth_token "" then mret (RetStr "Missing 'nt_auth_token'")
  else if String.eqb app_key "" then mret (RetStr "Missing 'app_key'")
  else
    caught ← try_except (
      construct (NewApiClient "https://api4.nozbe.com/v1/api" nt_auth_token);;
      construct (NewMondayClient app_key);;
      _import_data team_id);
    match caught with
    | Some exc => mret (RetExc exc)
    | None => mret RetNone
    end.

End Pipeline.

(** ** A concrete world

    An instance of the floats and a family of collaborators on which
    the importer can be run: the floats with an integral value,
    written in decimal, and services whose answers do not depend on
    the past. *)
Module Demo.

#[local] Instance int_floats : PyFloat := {|
  float := Z;
  float_one := 1;
  float_truthy := fun f => negb (Z.eqb f 0);
  float_of_int := Some;
  float_of_string := fun s => Z.of_uint <$> NilZero.uint_of_string s;
  float_key := inl
|}.

(** [isoparse(v).timestamp()] on three dates; any other string is not
    a date, and [isoparse] wants a string. *)
Definition demo_isoparse (v : pyval) : answer Q :=
  match v with
  | PStr s =>
      if String.eqb s "2024-01-01T00:00:00Z" then inr (1704067200 # 1)
      else if String.eqb s "2024-01-02T00:00:00Z" then inr (1704153600 # 1)
      else if String.eqb s "2024-01-03T00:00:00Z" then inr (1704240000 # 1)
      else inl ValueError
  | _ => inl TypeError
  end.

Definition obj (fields : list (string * pyval)) : record := list_to_map fields.

Definition world (projects : list record)
    (sections tasks comments : pyval -> list record)
    (created_project : Project -> option record)
    (created_section : ProjectSection -> option record)
    (created_task : Task -> option pyval)
    (limits : string -> Z) (nt_projects : list record) : Env := {|
  id16 := fun n => "id" +:+ pretty n;
  nt_limits := fun _ _ => inr limits;
  current_nt_member := fun _ => inr (PStr "member");
  get_projects_per_team := fun _ _ => inr nt_projects;
  monday_projects := fun _ => inr projects;
  monday_sections := fun _ p => inr (sections p);
  monday_tasks := fun _ p => inr (tasks p);
  monday_comments := fun _ t => inr (comments t);
  post_project := fun _ m => inr (created_project m);
  post_project_section := fun _ m => inr (created_section m);
  post_task := fun _ m => inr (created_task m);
  post_comment := fun _ _ => inr tt;
  isoparse_timestamp := demo_isoparse;
  py_repr := fun _ => "<object>"
|}.

Definition start : state := {| calls := []; drawn := 0 |}.

Definition no_limit : string -> Z := fun _ => 1000.

(** One public board with three groups, two items and three updates
    on the first item, listed out of order. *)
Definition board : record :=
  obj [("id", PStr "b1"); ("name", PStr "Board");
       ("board_kind", PStr "public"); ("state", PStr "active")].

Definition todo : record :=
  obj [("id", PStr "g1"); ("title", PStr "Todo"); ("position", PStr "65536")].
Definition doing : record :=
  obj [("id", PStr "g2"); ("title", PStr "Doing"); ("position", PStr "131072");
       ("archived", PBool true)].
Definition done : record :=
  obj [("id", PStr "g3"); ("title", PStr "Done")].

Definition write : record :=
  obj [("id", PStr "i1"); ("name", PStr "Write"); ("group", PStr "g1");
       ("due_at", PStr "2024-01-01T00:00:00Z")].
Definition review : record :=
  obj [("id", PStr "i2"); ("name", PStr "Review"); ("group", PStr "g2")].

Definition third : record :=
  obj [("id", PStr "u3"); ("text_body", PStr "third");
       ("created_at", PStr "2024-01-03T00:00:00Z")].
Definition first : record :=
  obj [("id", PStr "u1"); ("text_body", PStr "first");
       ("created_at", PStr "2024-01-01T00:00:00Z")].
Definition second : record :=
  obj [("id", PStr "u2"); ("text_body", PStr "second");
       ("created_at", PStr "2024-01-02T00:00:00Z")].

Definition of_board (l : list record) (v : pyval) : list record :=
  if py_eq_str v "b1" then l else [].

Definition of_item (l : list record) (v : pyval) : list record :=
  if py_eq_str v "i1" then l else [].

Definition created (id : string) : option record := Some (obj [("id", PStr id)]).

(** The creation of the section named [Doing] answers nothing. *)
Definition section_unless_doing (m : ProjectSection) : option record :=
  match section_name m with
  | MWrap Name (PStr "Doing") => None
  | MWrap Name (PStr title) => created ("s-" +:+ title)
  | _ => None
  end.

(** Everything is created, but for the section [Doing]. *)
Definition healthy : Env :=
  world [board] (of_board [todo; doing; done]) (of_board [write; review])
        (of_item [third; first; second])
        (fun _ => created "p1") section_unless_doing (fun _ => Some (PStr "t1"))
        no_limit [].

(** The creation of the project answers nothing. *)
Definition project_refused : Env :=
  world [board] (of_board [todo]) (of_board []) (of_item [])
        (fun _ => None) section_unless_doing (fun _ => Some (PStr "t1"))
        no_limit [].

(** No open project is allowed. *)
Definition no_quota : Env :=
  world [board] (of_board [todo]) (of_board []) (of_item [])
        (fun _ => created "p1") section_unless_doing (fun _ => Some (PStr "t1"))
        (fun _ => 0) [].

(** A group whose position is not a number. *)
Definition odd_group : record :=
  obj [("id", PStr "g9"); ("title", PStr "Odd"); ("position", PStr "abc")].

Definition odd_position : Env :=
  world [board] (of_board [odd_group]) (of_board []) (of_item [])
        (fun _ => created "p1") section_unless_doing (fun _ => Some (PStr "t1"))
        no_limit [].

(** An update whose creation time is not a date. *)
Definition odd_update : record :=
  obj [("id", PStr "u9"); ("text_body", PStr "odd"); ("created_at", PStr "yesterday")].

Definition odd_timestamp : Env :=
  world [board] (of_board []) (of_board [write]) (of_item [odd_update])
        (fun _ => created "p1") section_unless_doing (fun _ => Some (PStr "t1"))
        no_limit [].

End Demo.

(** * Properties *)

(** ** The monad *)

Ltac munfold :=
  unfold mbind, mret, M_bind, M_ret, bind, ret, lift, call, construct, new_id in *.

Section Monad.
Context `{PyFloat}.

(** [grows m]: running [m] only appends events to the trace, all of
    them satisfying [P]. *)
Definition grows {A} (P : event -> Prop) (m : M A) : Prop :=
  forall st, exists evs, calls (m st).2 = calls st ++ evs /\ Forall P evs.

Lemma grows_ret {A} P (a : A) : grows P (mret a).
Proof. intros st. exists []. munfold. simpl. rewrite app_nil_r. auto. Qed.

Lemma grows_lift {A} P (r : answer A) : grows P (lift r).
Proof. intros st. exists []. munfold. simpl. rewrite app_nil_r. auto. Qed.

Lemma grows_new_id P env : grows P (new_id env).
Proof. intros st. exists []. munfold. simpl. rewrite app_nil_r. auto. Qed.

Lemma grows_call {A} (P : event -> Prop) (o : trace -> answer A) ev :
  (forall r, P (ev r)) -> grows P (call o ev).
Proof. intros HP st. exists [ev (o (calls st))]. munfold. simpl. auto. Qed.

Lemma grows_construct (P : event -> Prop) ev : P ev -> grows P (construct ev).
Proof. intros HP st. exists [ev]. munfold. simpl. auto. Qed.

Lemma grows_bind {A B} P (m : M A) (k : A -> M B) :
  grows P m -> (forall a, grows P (k a)) -> grows P (m ≫= k).
Proof.
  intros Hm Hk st. munfold. destruct (Hm st) as (e1 & E1 & F1).
  destruct (m st) as [[e|a] st1]; simpl in *.
  - exists e1. auto.
  - destruct (Hk a st1) as (e2 & E2 & F2). exists (e1 ++ e2).
    rewrite E2, E1, app_assoc. split; [done|]. apply Forall_app; auto.
Qed.

Lemma grows_for_each {A} P (l : list A) (body : A -> M unit) :
  (forall x, grows P (body x)) -> grows P (for_each l body).
Proof.
  intros Hb. induction l as [|x l IH]; simpl.
  - apply (grows_ret P tt).
  - apply (grows_bind P (body x)); auto.
Qed.

Lemma grows_weaken {A} (P Q : event -> Prop) (m : M A) :
  (forall e, P e -> Q e) -> grows P m -> grows Q m.
Proof.
  intros HPQ Hm st. destruct (Hm st) as (evs & E & F).
  exists evs. split; [done|]. eapply Forall_impl; eauto.
Qed.

End Monad.

Create HintDb grows.
#[global] Hint Resolve grows_ret grows_lift grows_new_id grows_call
  grows_construct grows_for_each : grows.

(** ** Every stage only appends to the trace *)

Definition any_event `{PyFloat} (e : event) : Prop := True.

(** The events of the stages below [_import_data]: those of one
    project and its subtree. *)
Definition stage_event `{PyFloat} (e : event) : Prop :=
  match e with
  | PostProject _ _ | MondaySections _ _ | PostProjectSection _ _
  | MondayTasks _ _ | PostTask _ _ | MondayComments _ _ | PostComment _ _ => True
  | CheckLimits category _ _ => category = "project_sections"
  | _ => False
  end.

Ltac grows_step :=
  first [ apply grows_ret | apply grows_lift | apply grows_new_id
        | apply grows_call; intros ?; exact I
        | apply grows_call; intros ?; reflexivity
        | apply grows_construct; exact I
        | match goal with
          | |- grows _ (match ?x with _ => _ end) => destruct x
          | |- grows _ (if ?x then _ else _) => destruct x
          end
        | apply grows_bind; [| intros ?]
        | apply grows_for_each; intros ? ].

Section Traces.
Context `{PyFloat} (env : Env).

Lemma import_comments_grows nt_task_id tr_task_id :
  grows stage_event (_import_comments env nt_task_id tr_task_id).
Proof. unfold _import_comments, import_comment. repeat grows_step. Qed.

Lemma import_tasks_grows d m_project_id nt_project_id author_id :
  grows stage_event (_import_tasks env d m_project_id nt_project_id author_id).
Proof.
  unfold _import_tasks, import_task.
  repeat first [apply import_comments_grows | grows_step].
Qed.

Lemma import_sections_grows nt_project_id sections d :
  grows stage_event (import_sections env nt_project_id sections d).
Proof.
  revert d. induction sections as [|s l IH]; intros d; simpl.
  - apply grows_ret.
  - apply grows_bind; [|auto]. unfold import_section. repeat grows_step.
Qed.

Lemma import_project_sections_grows nt_project_id project limits curr_member :
  grows stage_event (_import_project_sections env nt_project_id project limits curr_member).
Proof.
  unfold _import_project_sections.
  repeat first [apply import_sections_grows | apply import_tasks_grows | grows_step].
Qed.

Lemma import_project_grows team_id limits project curr_member :
  grows stage_event (_import_project env team_id limits project curr_member).
Proof.
  unfold _import_project.
  repeat first [apply import_project_sections_grows | grows_step].
Qed.

Lemma import_projects_grows team_id limits projects curr_member :
  grows stage_event
    (for_each projects (fun p => _import_project env team_id limits p curr_member)).
Proof. apply grows_for_each. intros p. apply import_project_grows. Qed.

Lemma import_data_grows team_id : grows any_event (_import_data env team_id).
Proof.
  unfold _import_data.
  repeat first [ apply (grows_weaken stage_event); [intros; exact I | apply import_project_grows]
               | grows_step ].
Qed.

End Traces.

(** ** Input validation *)

Section Validation.
Context `{PyFloat} (env : Env).

(** C8. With an empty [nt_auth_token], [run_import] returns the
    message about the destination token; with a token and an empty
    [app_key], the message about the source key.  In both cases the
    state is untouched: no client was built and no call was issued. *)
Theorem run_import_missing_credentials (c : Ascii.ascii) (t app_key team_id : string) (st : state) :
  run_import env "" app_key team_id st = (inr (RetStr "Missing 'nt_auth_token'"), st)
  /\ run_import env (String c t) "" team_id st = (inr (RetStr "Missing 'app_key'"), st).
Proof. split; reflexivity. Qed.

Lemma try_except_calls (m : M unit) (st : state) :
  calls (try_except m st).2 = calls (m st).2.
Proof.
  unfold try_except. destruct (m st) as [[e|[]] st']; [destruct (handled e)|]; reflexivity.
Qed.

Lemma call_then {A B} (o : trace -> answer A) ev (k : A -> M B) (st : state) :
  (forall a, grows any_event (k a)) ->
  exists evs, calls ((call o ev ≫= k) st).2 = calls st ++ ev (o (calls st)) :: evs.
Proof.
  intros Hk. munfold. simpl. destruct (o (calls st)) as [e|a]; simpl.
  - exists []. reflexivity.
  - destruct (Hk a {| calls := calls st ++ [ev (inr a)]; drawn := drawn st |})
      as (evs & E & _).
    exists evs. rewrite E. simpl. rewrite <- app_assoc. reflexivity.
Qed.

(** The events a run that passes validation begins with. *)
Lemma run_import_starts (c c' : Ascii.ascii) (t k team_id : string) (st : state) :
  let token := String c t in
  let key := String c' k in
  let built := [NewApiClient "https://api4.nozbe.com/v1/api" token; NewMondayClient key] in
  exists evs,
    calls (run_import env token key team_id st).2
    = calls st ++ built
        ++ NtLimits team_id (nt_limits env (calls st ++ built) team_id) :: evs.
Proof.
  intros token key built.
  set (st2 := {| calls := calls st ++ built; drawn := drawn st |}).
  assert (E : exists evs,
    calls (_import_data env team_id st2).2
    = calls st2 ++ NtLimits team_id (nt_limits env (calls st2) team_id) :: evs).
  { unfold _import_data. apply call_then. intros limits.
    repeat first [ apply (grows_weaken stage_event);
                     [intros; exact I | apply import_project_grows]
                 | grows_step ]. }
  destruct E as (evs & E). exists evs.
  transitivity (calls (_import_data env team_id st2).2);
    [clear E | rewrite E; simpl; rewrite <- app_assoc; reflexivity].
  unfold run_import. simpl.
  unfold mbind, M_bind, bind at 1. rewrite (surjective_pairing (try_except _ st)).
  assert (T : calls (try_except
      (construct (NewApiClient "https://api4.nozbe.com/v1/api" token);;
       construct (NewMondayClient key);; _import_data env team_id) st).2
    = calls (_import_data env team_id st2).2).
  { rewrite try_except_calls. munfold. simpl. subst st2 built. simpl.
    rewrite <- app_assoc. reflexivity. }
  destruct (try_except _ st).1 as [e|[e|]]; simpl; exact T.
Qed.

(** C10. An empty [team_id] passes validation, although ["team_id"]
    is one of the importer's input fields: with a token and a key,
    [run_import] returns no message at all, builds both clients and
    asks the destination for the limits of the team [""]. *)
Theorem run_import_empty_team_id (c c' : Ascii.ascii) (t k : string) (st : state) :
  let token := String c t in
  let key := String c' k in
  let built := [NewApiClient "https://api4.nozbe.com/v1/api" token; NewMondayClient key] in
  "team_id" ∈ input_fields SPEC
  /\ (forall msg, (run_import env token key "" st).1 <> inr (RetStr msg))
  /\ exists evs,
       calls (run_import env token key "" st).2
       = calls st ++ built ++ NtLimits "" (nt_limits env (calls st ++ built) "") :: evs.
Proof.
  intros token key built. split; [|split].
  - simpl. set_solver.
  - intros msg. unfold run_import. simpl.
    unfold mbind, M_bind, bind at 1.
    destruct (try_except _ st) as [[e|[e|]] st']; simpl; discriminate.
  - apply run_import_starts.
Qed.

End Validation.

(** ** The mapping of tasks and sections *)

Section Mapper.
Context `{PyFloat}.

(** C7. The task model's [responsible_id] is the acting member when
    the source [due_at] is truthy and [None] otherwise; a task record
    without a [due_at] entry gets [None] whoever the acting member is. *)
Theorem task_responsible_id_iff_due (nt_project_id : string) (author_id : pyval)
    (task : record) (i a sec : pyval) :
  task_responsible_id (task_model nt_project_id author_id task i a sec)
  = MWrap Id16Nullable (if py_truthy (get task "due_at") then author_id else PNone)
  /\ task_responsible_id
       (task_model nt_project_id author_id (delete "due_at" task) i a sec)
     = MWrap Id16Nullable PNone.
Proof.
  split.
  - unfold task_model, task_due. destruct (py_truthy (get task "due_at")); reflexivity.
  - unfold task_model, task_due, get, record in *.
    rewrite lookup_delete_eq. reflexivity.
Qed.

(** What the task model carries as [due_at]: the source value itself. *)
Lemma task_due_at_raw (nt_project_id : string) (author_id : pyval)
    (task : record) (i a sec : pyval) :
  task_due_at (task_model nt_project_id author_id task i a sec)
  = if py_truthy (get task "due_at")
    then MWrap TimestampNullable (get task "due_at")
    else MRaw (get task "due_at").
Proof.
  unfold task_model, task_due. destruct (py_truthy (get task "due_at")); reflexivity.
Qed.

(** C9. When the section model is built, its [position] is
    [float(position)] of a truthy source position and [1.0] for a
    falsy or absent one, and its [archived_at] is the timestamp [1]
    for a truthy [archived] and [None] otherwise. *)
Theorem section_model_position_archived (nt_project_id : string)
    (section : record) (i : pyval) (m : ProjectSection) :
  section_model nt_project_id section i = inr m ->
  (exists f, section_position m = MRaw (PFloat f)
             /\ if py_truthy (get section "position")
                then py_float (get section "position") = inr f
                else f = float_one)
  /\ section_archived_at m
     = if py_truthy (get section "archived")
       then MWrap TimestampReadOnly (PInt 1) else MRaw PNone.
Proof.
  unfold section_model, py_or. intros Hm.
  destruct (py_truthy (get section "position")) eqn:Hp.
  - destruct (py_float (get section "position")) as [e|f] eqn:Hf; [discriminate|].
    injection Hm as <-. simpl. eauto.
  - simpl in Hm. injection Hm as <-. simpl. eauto.
Qed.

(** A section without a usable position is always mapped, at [1.0]. *)
Lemma section_model_default (nt_project_id : string) (section : record) (i : pyval) :
  py_truthy (get section "position") = false ->
  exists m, section_model nt_project_id section i = inr m
            /\ section_position m = MRaw (PFloat float_one).
Proof.
  intros Hp. unfold section_model, py_or. rewrite Hp. simpl. eauto.
Qed.

End Mapper.

(** ** The quota on open projects *)

Section Quota.
Context `{PyFloat} (env : Env).

(** The count as the specification words it. *)
Definition public_board (project : record) : bool :=
  py_eq_str (get project "board_kind") "public".

Definition open_without_end (elt : record) : bool :=
  py_truthy (get elt "is_open") && negb (py_truthy (get elt "ended_at")).

Definition projected_open_count (monday_projects nt_projects : list record) : Z :=
  Z.of_nat (length (filter (fun p => public_board p = true) monday_projects))
  + Z.of_nat (length (filter (fun elt => open_without_end elt = true) nt_projects)).

Lemma counts_as_open_spec (elt : record) : counts_as_open elt = open_without_end elt.
Proof.
  unfold counts_as_open, open_without_end, hasattr, get.
  unfold record in *.
  destruct (elt !! "ended_at") as [v|]; simpl; [reflexivity|].
  rewrite !andb_true_r. reflexivity.
Qed.

Lemma py_sum_trues {A} (l : list A) : py_sum ((fun _ => true) <$> l) = Z.of_nat (length l).
Proof.
  induction l as [|x l IH]; [reflexivity|].
  rewrite fmap_cons. unfold py_sum in *. cbn [foldr length]. rewrite IH.
  change (Z.b2z true) with 1. lia.
Qed.

Lemma projects_open_count_spec (monday_projects nt_projects : list record) :
  projects_open_count monday_projects nt_projects
  = projected_open_count monday_projects nt_projects.
Proof.
  unfold projects_open_count, projected_open_count.
  rewrite py_sum_trues, length_fmap. f_equal. f_equal. f_equal.
  apply list_filter_iff. intros elt. rewrite counts_as_open_spec. reflexivity.
Qed.

(** [_import_data], once its four fetches have answered. *)
Lemma import_data_checked (team_id : string) (st : state)
    (limits : string -> Z) (member : pyval) (mp ntp : list record) :
  let e1 := NtLimits team_id (inr limits) in
  let e2 := CurrentNtMember (inr member) in
  let e3 := MondayProjects (inr mp) in
  let e4 := ProjectsPerTeam team_id (inr ntp) in
  nt_limits env (calls st) team_id = inr limits ->
  current_nt_member env (calls st ++ [e1]) = inr member ->
  monday_projects env (calls st ++ [e1; e2]) = inr mp ->
  get_projects_per_team env (calls st ++ [e1; e2; e3]) team_id = inr ntp ->
  let n := projected_open_count mp ntp in
  let r := check_limits limits "projects_open" n in
  let st5 := {| calls := calls st ++ [e1; e2; e3; e4; CheckLimits "projects_open" n r];
                drawn := drawn st |} in
  _import_data env team_id st
  = match r with
    | inl e => (inl e, st5)
    | inr _ => for_each mp (fun p => _import_project env team_id limits p member) st5
    end.
Proof.
  intros e1 e2 e3 e4 H1 H2 H3 H4 n r st5. subst e1 e2 e3 e4 st5.
  unfold _import_data. munfold. cbn [calls drawn].
  rewrite H1. cbn [calls drawn].
  rewrite H2. cbn [calls drawn]. rewrite <- ?app_assoc. cbn [app].
  rewrite H3. cbn [calls drawn]. rewrite <- ?app_assoc. cbn [app].
  rewrite H4. cbn [calls drawn]. rewrite <- ?app_assoc. cbn [app].
  rewrite projects_open_count_spec. fold n. fold r.
  destruct r; reflexivity.
Qed.

Ltac no_post_project :=
  let Hin := fresh in
  intros ? ? Hin;
  repeat (apply elem_of_cons in Hin as [Hin|Hin]; [discriminate Hin|]);
  apply elem_of_nil in Hin; exact Hin.

(** The shape of every run of [_import_data]: either it creates no
    project, or it opens with the four fetches and a passed check of
    the open projects, followed by events of the project stages. *)
Lemma import_data_trace (team_id : string) (st : state) :
  exists new, calls (_import_data env team_id st).2 = calls st ++ new
    /\ ((forall m r, PostProject m r ∉ new)
        \/ exists limits member mp ntp evs,
             new = [NtLimits team_id (inr limits); CurrentNtMember (inr member);
                    MondayProjects (inr mp); ProjectsPerTeam team_id (inr ntp);
                    CheckLimits "projects_open" (projected_open_count mp ntp) (inr tt)]
                   ++ evs
             /\ Forall stage_event evs).
Proof.
  destruct (nt_limits env (calls st) team_id) as [e|limits] eqn:H1.
  { eexists. split; [|left].
    - unfold _import_data. munfold. cbn [calls drawn]. rewrite H1. reflexivity.
    - no_post_project. }
  destruct (current_nt_member env (calls st ++ [NtLimits team_id (inr limits)]))
    as [e|member] eqn:H2.
  { eexists. split; [|left].
    - unfold _import_data. munfold. cbn [calls drawn]. rewrite H1. cbn [calls drawn].
      rewrite H2. cbn [snd calls]. rewrite <- ?app_assoc. reflexivity.
    - no_post_project. }
  destruct (monday_projects env
    (calls st ++ [NtLimits team_id (inr limits); CurrentNtMember (inr member)]))
    as [e|mp] eqn:H3.
  { eexists. split; [|left].
    - unfold _import_data. munfold. cbn [calls drawn]. rewrite H1. cbn [calls drawn].
      rewrite H2. cbn [calls drawn]. rewrite <- ?app_assoc. cbn [app].
      rewrite H3. cbn [snd calls]. rewrite <- ?app_assoc. reflexivity.
    - no_post_project. }
  destruct (get_projects_per_team env
    (calls st ++ [NtLimits team_id (inr limits); CurrentNtMember (inr member);
                  MondayProjects (inr mp)]) team_id)
    as [e|ntp] eqn:H4.
  { eexists. split; [|left].
    - unfold _import_data. munfold. cbn [calls drawn]. rewrite H1. cbn [calls drawn].
      rewrite H2. cbn [calls drawn]. rewrite <- ?app_assoc. cbn [app].
      rewrite H3. cbn [calls drawn]. rewrite <- ?app_assoc. cbn [app].
      rewrite H4. cbn [snd calls]. rewrite <- ?app_assoc. reflexivity.
    - no_post_project. }
  rewrite (import_data_checked team_id st limits member mp ntp H1 H2 H3 H4).
  unfold check_limits.
  destruct (limits "projects_open" <? projected_open_count mp ntp).
  { eexists. split; [|left]; [reflexivity | no_post_project]. }
  match goal with
  | |- context [for_each mp ?body ?s] =>
      destruct (import_projects_grows env team_id limits mp member s) as (evs & E & F)
  end.
  eexists. split; [|right; exists limits, member, mp, ntp, evs; split; [reflexivity|exact F]].
  rewrite E. cbn [calls]. rewrite <- app_assoc. reflexivity.
Qed.

(** C2. In every run of [_import_data], a project-creation call is
    preceded by the fetch of the source projects, the fetch of the
    team's destination projects and a passed check of ["projects_open"]
    whose count is the number of public source projects plus the
    number of destination projects that are open and carry no end
    timestamp.  When that count is above the cap, the run raises
    QuotaExceeded right after the check, and its trace ends there:
    no project was created. *)
Theorem projects_open_quota_checked_first (team_id : string) (st : state) :
  (forall pre m r post,
     calls (_import_data env team_id st).2 = calls st ++ pre ++ PostProject m r :: post ->
     exists mp ntp,
       MondayProjects (inr mp) ∈ pre
       /\ ProjectsPerTeam team_id (inr ntp) ∈ pre
       /\ CheckLimits "projects_open" (projected_open_count mp ntp) (inr tt) ∈ pre)
  /\ (forall limits member mp ntp,
        let e1 := NtLimits team_id (inr limits) in
        let e2 := CurrentNtMember (inr member) in
        let e3 := MondayProjects (inr mp) in
        let e4 := ProjectsPerTeam team_id (inr ntp) in
        let n := projected_open_count mp ntp in
        let quota := QuotaExceeded "projects_open" (limits "projects_open") in
        nt_limits env (calls st) team_id = inr limits ->
        current_nt_member env (calls st ++ [e1]) = inr member ->
        monday_projects env (calls st ++ [e1; e2]) = inr mp ->
        get_projects_per_team env (calls st ++ [e1; e2; e3]) team_id = inr ntp ->
        limits "projects_open" < n ->
        _import_data env team_id st
        = (inl quota,
           {| calls := calls st ++ [e1; e2; e3; e4;
                                    CheckLimits "projects_open" n (inl quota)];
              drawn := drawn st |})).
Proof.
  split.
  - intros pre m r post Hrun.
    destruct (import_data_trace team_id st) as (new & E & [Hno | Hyes]).
    + rewrite E in Hrun. apply app_inv_head in Hrun. subst new.
      exfalso. apply (Hno m r). apply elem_of_app. right. apply elem_of_cons. auto.
    + destruct Hyes as (limits & member & mp & ntp & evs & -> & F).
      rewrite E in Hrun. apply app_inv_head in Hrun.
      exists mp, ntp.
      do 5 (destruct pre as [|? pre]; [discriminate Hrun|];
            simpl in Hrun; injection Hrun as <- Hrun).
      repeat split; set_solver.
  - intros limits member mp ntp e1 e2 e3 e4 n quota H1 H2 H3 H4 Hcap.
    rewrite (import_data_checked team_id st limits member mp ntp H1 H2 H3 H4).
    unfold check_limits. fold n.
    destruct (Z.ltb_spec (limits "projects_open") n); [reflexivity | lia].
Qed.

(** The caller of [run_import] receives that exception as a value. *)
Lemma run_import_quota_exceeded (c c' : Ascii.ascii) (t k team_id : string) (st : state)
    (e : exn) (st' : state) :
  let start := {| calls := calls st ++ [NewApiClient "https://api4.nozbe.com/v1/api" (String c t);
                                        NewMondayClient (String c' k)];
                  drawn := drawn st |} in
  _import_data env team_id start = (inl e, st') ->
  handled e = true ->
  run_import env (String c t) (String c' k) team_id st = (inr (RetExc e), st').
Proof.
  intros start Hrun He. unfold run_import. simpl.
  unfold mbind, M_bind, bind, try_except, construct. simpl.
  rewrite <- app_assoc. simpl. fold start. rewrite Hrun, He. reflexivity.
Qed.

End Quota.

(** ** The order of the comments *)

Section Sorting.
Context {A : Type}.

Implicit Types (x y : Q * A) (l : list (Q * A)).

(** [key_le x y]: the key of [x] is at most the key of [y]. *)
Definition key_le (x y : Q * A) : Prop := (x.1 <= y.1)%Q.

(** [same_key k x]: the key of [x] equals [k]. *)
Definition same_key (k : Q) (x : Q * A) : Prop := (x.1 == k)%Q.

#[global] Instance same_key_dec k x : Decision (same_key k x) := Qeq_dec x.1 k.

Lemma key_lt_true x y : key_lt x y = true -> (x.1 < y.1)%Q.
Proof.
  unfold key_lt, Qltb. intros E. apply negb_true_iff in E.
  apply Qnot_le_lt. intros Hle. apply Qle_bool_iff in Hle.
  rewrite Hle in E. discriminate E.
Qed.

Lemma key_lt_false x y : key_lt x y = false -> key_le y x.
Proof.
  unfold key_lt, Qltb, key_le. intros E. apply negb_false_iff in E.
  apply Qle_bool_iff. exact E.
Qed.

Lemma insert_by_perm x l : insert_by key_lt x l ≡ₚ x :: l.
Proof.
  induction l as [|y l IH]; simpl; [reflexivity|].
  destruct (key_lt y x); [|reflexivity].
  rewrite IH. apply Permutation_swap.
Qed.

Lemma sort_by_perm l : sort_by key_lt l ≡ₚ l.
Proof.
  induction l as [|x l IH]; simpl; [reflexivity|].
  unfold sort_by in *. simpl. rewrite insert_by_perm, IH. reflexivity.
Qed.

Lemma insert_by_hd x y l :
  key_le y x -> HdRel key_le y l -> HdRel key_le y (insert_by key_lt x l).
Proof.
  intros Hyx Hl. destruct l as [|z l]; simpl.
  - constructor. exact Hyx.
  - destruct (key_lt z x); constructor; [|exact Hyx].
    inversion Hl; assumption.
Qed.

Lemma insert_by_sorted x l :
  Sorted key_le l -> Sorted key_le (insert_by key_lt x l).
Proof.
  induction 1 as [|y l Hs IH Hhd]; simpl.
  - repeat constructor.
  - destruct (key_lt y x) eqn:E.
    + constructor; [exact IH|]. apply insert_by_hd; [|exact Hhd].
      apply Qlt_le_weak, key_lt_true, E.
    + repeat constructor; try assumption. apply key_lt_false, E.
Qed.

Lemma sort_by_sorted l : Sorted key_le (sort_by key_lt l).
Proof.
  induction l as [|x l IH]; simpl; [constructor|].
  apply insert_by_sorted, IH.
Qed.

(** Inserting [x] keeps it in front of the elements with its key. *)
Lemma insert_by_stable k x l :
  filter (same_key k) (insert_by key_lt x l) = filter (same_key k) (x :: l).
Proof.
  induction l as [|y l IH]; simpl; [reflexivity|].
  destruct (key_lt y x) eqn:E; [|reflexivity].
  rewrite filter_cons, IH, !filter_cons.
  destruct (decide (same_key k y)) as [Hy|Hy];
    destruct (decide (same_key k x)) as [Hx|Hx]; try reflexivity.
  exfalso. apply key_lt_true in E. unfold same_key in *.
  rewrite Hx, Hy in E. exact (Qlt_irrefl k E).
Qed.

Lemma sort_by_stable k l :
  filter (same_key k) (sort_by key_lt l) = filter (same_key k) l.
Proof.
  induction l as [|x l IH]; [reflexivity|].
  change (sort_by key_lt (x :: l)) with (insert_by key_lt x (sort_by key_lt l)).
  rewrite insert_by_stable, !filter_cons, IH. reflexivity.
Qed.

(** The decoration keeps the elements and attaches their keys. *)
Lemma decorate_spec (key : A -> answer Q) (l : list A) (d : list (Q * A)) :
  decorate key l = inr d -> d.*2 = l /\ Forall (fun x => key x.2 = inr x.1) d.
Proof.
  revert d. induction l as [|a l IH]; intros d; simpl.
  - intros [= <-]. split; constructor.
  - destruct (key a) as [e|k] eqn:Ek; [discriminate|].
    destruct (decorate key l) as [e|d'] eqn:Ed; [discriminate|].
    intros [= <-]. destruct (IH d' eq_refl) as [E F].
    split; [rewrite fmap_cons; simpl; f_equal; exact E | constructor; assumption].
Qed.

End Sorting.

Section Comments.
Context `{PyFloat} (env : Env).

(** [ev] is the submission of the source comment [c] to the task. *)
Definition posts_comment (nt_task_id : string) (c : record) (ev : event) : Prop :=
  exists i a r, ev = PostComment (comment_model nt_task_id c i a) r.

Lemma import_comment_run (nt_task_id : string) (c : record) (st : state) :
  exists ev r, posts_comment nt_task_id c ev
    /\ import_comment env nt_task_id c st
       = (r, {| calls := calls st ++ [ev]; drawn := S (S (drawn st)) |}).
Proof.
  unfold import_comment. munfold. cbn [calls drawn].
  eexists _, _. split; [|reflexivity]. eexists _, _, _. reflexivity.
Qed.

(** The loop submits the comments of its list in order, one call
    each, and stops early only when a call raises. *)
Lemma import_comment_loop (nt_task_id : string) (l : list record) (st : state) :
  exists n evs,
    calls (for_each l (import_comment env nt_task_id) st).2 = calls st ++ evs
    /\ Forall2 (posts_comment nt_task_id) (take n l) evs
    /\ ((for_each l (import_comment env nt_task_id) st).1 = inr tt -> n = length l).
Proof.
  revert st. induction l as [|c l IH]; intros st.
  - exists 0%nat, []. simpl. rewrite app_nil_r. repeat split. constructor.
  - cbn [for_each]. unfold bind.
    destruct (import_comment_run nt_task_id c st) as (ev & r & Hev & ->).
    destruct r as [e|[]]; cbn [fst snd calls].
    + exists 1%nat, [ev]. repeat split; [|discriminate].
      simpl. rewrite take_0. repeat constructor. exact Hev.
    + match goal with
      | |- context [for_each l _ ?s] => destruct (IH s) as (n & evs & Ec & F & Hn)
      end.
      exists (S n), (ev :: evs). repeat split.
      * rewrite Ec. cbn [calls]. rewrite <- app_assoc. reflexivity.
      * simpl. constructor; [exact Hev|exact F].
      * intros Hr. simpl. f_equal. exact (Hn Hr).
Qed.

(** C3. When the comments of a task are fetched and their creation
    times parse, the comments are submitted in the order of the
    stable sort by creation time: the submitted sequence follows the
    list [ordered], which is non-decreasing in the parsed time, is a
    rearrangement of the fetched list, and keeps comments of equal
    time in their fetched order.  All of them are submitted unless a
    submission raises. *)
Theorem comments_submitted_in_creation_order (nt_task_id : string) (task : pyval)
    (st : state) (cs : list record) (d : list (Q * record)) :
  monday_comments env (calls st) task = inr cs ->
  decorate (created_at_key env) cs = inr d ->
  let ordered := sort_by key_lt d in
  let run := _import_comments env nt_task_id task st in
  (d.*2 = cs /\ Forall (fun x => created_at_key env x.2 = inr x.1) d)
  /\ Sorted key_le ordered
  /\ ordered ≡ₚ d
  /\ (forall k, filter (same_key k) ordered = filter (same_key k) d)
  /\ exists n evs,
       calls run.2 = calls st ++ MondayComments task (inr cs) :: evs
       /\ Forall2 (posts_comment nt_task_id) (take n ordered.*2) evs
       /\ (run.1 = inr tt -> n = length cs).
Proof.
  intros Hcs Hd ordered run.
  split; [apply decorate_spec; exact Hd|].
  split; [apply sort_by_sorted|].
  split; [apply sort_by_perm|].
  split; [intros k; apply sort_by_stable|].
  subst run. unfold _import_comments. munfold. cbn [calls drawn].
  rewrite Hcs. unfold py_sorted. rewrite Hd. fold ordered.
  match goal with
  | |- context [for_each _ _ ?s] =>
      destruct (import_comment_loop nt_task_id ordered.*2 s) as (n & evs & Ec & F & Hn)
  end.
  exists n, evs. repeat split.
  - rewrite Ec. cbn [calls]. rewrite <- app_assoc. reflexivity.
  - exact F.
  - intros Hr. rewrite (Hn Hr). subst ordered. rewrite length_fmap.
    rewrite (Permutation_length (sort_by_perm d)).
    apply decorate_spec in Hd as [<- _]. rewrite length_fmap. reflexivity.
Qed.

End Comments.

(** ** The identifier map of a project *)

Section Sections.
Context `{PyFloat} (env : Env).

(** [ev] is the creation call for the source section [s], answered [o]. *)
Definition posts_section (nt_project_id : string) (s : record) (o : option record)
    (ev : event) : Prop :=
  exists i m, section_model nt_project_id s i = inr m /\ ev = PostProjectSection m (inr o).

(** The entry the specification gives to the key [k], from the
    sections of a project paired with the answers to their creation:
    the destination id of the last section with that key whose
    creation returned a result. *)
Fixpoint mapping_entry (k : pykey) (srs : list (record * option record)) : option string :=
  match srs with
  | [] => None
  | (s, o) :: rest =>
      match mapping_entry k rest with
      | Some v => Some v
      | None =>
          match o with
          | Some created =>
              if decide (py_key (get s "id") = Some k)
              then Some (py_str env (get created "id")) else None
          | None => None
          end
      end
  end.

(** An entry exists exactly for the keys of the created sections. *)
Lemma mapping_entry_is_Some (k : pykey) (srs : list (record * option record)) :
  is_Some (mapping_entry k srs)
  <-> exists s created, (s, Some created) ∈ srs /\ py_key (get s "id") = Some k.
Proof.
  induction srs as [|[s o] rest IH]; simpl.
  - split; [intros [? [=]] | intros (? & ? & Hin & _); inversion Hin].
  - destruct (mapping_entry k rest) as [v|] eqn:E.
    + split; [intros _ | eauto].
      destruct (proj1 IH (ltac:(eauto))) as (s' & c & Hin & Hk).
      exists s', c. split; [right; exact Hin | exact Hk].
    + split.
      * destruct o as [c|]; [|intros [? [=]]].
        destruct (decide _) as [Hk|]; [|intros [? [=]]].
        intros _. exists s, c. split; [left | exact Hk].
      * intros (s' & c & Hin & Hk). apply elem_of_cons in Hin as [[= <- <-]|Hin].
        -- rewrite decide_True by exact Hk. eauto.
        -- exfalso. destruct (proj2 IH (ltac:(eauto))) as [? [=]].
Qed.

(** One turn of the loop over the sections. *)
Lemma import_section_run (nt_project_id : string) (d d' : gmap pykey string)
    (s : record) (st st' : state) :
  import_section env nt_project_id d s st = (inr d', st') ->
  exists o ev, posts_section nt_project_id s o ev
    /\ calls st' = calls st ++ [ev]
    /\ match o with
       | None => d' = d
       | Some created =>
           exists k, py_key (get s "id") = Some k
                     /\ d' = <[k := py_str env (get created "id")]> d
       end.
Proof.
  unfold import_section, dict_set. munfold. cbn [calls drawn].
  destruct (section_model nt_project_id s _) as [e|m] eqn:Em; [discriminate|].
  destruct (post_project_section env (calls st) m) as [e|o] eqn:Eo; [discriminate|].
  destruct o as [created|].
  - destruct (py_key (get s "id")) as [k|] eqn:Ek; [|discriminate].
    intros [= <- <-]. exists (Some created), (PostProjectSection m (inr (Some created))).
    repeat split; [eexists _, _; eauto | eauto].
  - intros [= <- <-]. exists None, (PostProjectSection m (inr None)).
    repeat split. eexists _, _; eauto.
Qed.

(** The section stage builds the map of the specification. *)
Lemma import_sections_mapping (nt_project_id : string) (sections : list record)
    (d d' : gmap pykey string) (st st' : state) :
  import_sections env nt_project_id sections d st = (inr d', st') ->
  exists srs evs,
    srs.*1 = sections
    /\ calls st' = calls st ++ evs
    /\ Forall2 (fun sr ev => posts_section nt_project_id sr.1 sr.2 ev) srs evs
    /\ forall k, d' !! k = from_option Some (d !! k) (mapping_entry k srs).
Proof.
  revert d st. induction sections as [|s rest IH]; intros d st; cbn [import_sections].
  - intros [= <- <-]. exists [], []. rewrite app_nil_r. repeat split. constructor.
  - unfold mbind, M_bind, bind.
    destruct (import_section env nt_project_id d s st) as [[e|d1] st1] eqn:E1; [discriminate|].
    intros Hrest.
    apply import_section_run in E1 as (o & ev & Hev & Ec1 & Hd1).
    apply IH in Hrest as (srs & evs & Hsrs & Ec & F & Hd').
    exists ((s, o) :: srs), (ev :: evs). repeat split.
    + rewrite fmap_cons. simpl. f_equal. exact Hsrs.
    + rewrite Ec, Ec1, <- app_assoc. reflexivity.
    + constructor; [exact Hev | exact F].
    + intros k. rewrite Hd'. cbn [mapping_entry].
      destruct (mapping_entry k srs) as [v|]; [reflexivity|]. simpl.
      destruct o as [created|]; [|subst d1; reflexivity].
      destruct Hd1 as (ks & Hks & ->). rewrite Hks.
      destruct (decide (Some ks = Some k)) as [[= ->]|Hne]; simpl.
      * apply lookup_insert_eq.
      * apply lookup_insert_ne. congruence.
Qed.

Lemma task_model_section_id (nt_project_id : string) (author_id : pyval)
    (task : record) (i a sec : pyval) :
  task_project_section_id (task_model nt_project_id author_id task i a sec)
  = MWrap Id16Nullable sec.
Proof. unfold task_model. destruct (task_due task author_id). reflexivity. Qed.

(** A task whose group is hashable is submitted, with the section the
    map gives to its group. *)
Lemma import_task_posts (d : gmap pykey string) (nt_project_id : string)
    (author_id : pyval) (task : record) (st : state) (k : pykey) :
  py_key (get task "group") = Some k ->
  exists m r evs,
    calls (import_task env d nt_project_id author_id task st).2
    = calls st ++ PostTask m r :: evs
    /\ task_project_section_id m = MWrap Id16Nullable (from_option PStr PNone (d !! k)).
Proof.
  intros Hk. unfold import_task, dict_get. rewrite Hk.
  unfold mbind at 1 2 3, M_bind at 1 2 3, bind at 1 2 3, new_id, lift. cbn [calls drawn].
  set (m := task_model _ _ _ _ _ _).
  set (st2 := {| calls := calls st; drawn := S (S (drawn st)) |}).
  destruct (call_then (fun tr => post_task env tr m) (PostTask m)
              (fun nt_task => match nt_task with
                 | Some nt_task_id =>
                     _import_comments env (py_str env nt_task_id) (get task "id")
                 | None => mret tt
                 end) st2) as (evs & E).
  { intros [v|]; [|apply grows_ret].
    apply (grows_weaken stage_event); [intros; exact I | apply import_comments_grows]. }
  exists m, (post_task env (calls st) m), evs. split; [exact E|].
  subst m. rewrite task_model_section_id. destruct (d !! k); reflexivity.
Qed.

End Sections.

(** ** Failed creations and escaping exceptions *)

Section Failures.
Context `{PyFloat} (env : Env).

(** C1, as the code behaves.  When the creation of a project answers
    nothing, or an entity without an ["id"], the guard of
    [_import_project] does not fire: [str(None)] is the text ["None"],
    which is not empty, and the section stage runs for that project
    with ["None"] as the destination project id. *)
Theorem project_without_id_not_skipped (team_id : string) (limits : string -> Z)
    (project : record) (curr_member : pyval) (st : state) (o : option record) :
  let m := project_model team_id project
             (PStr (id16 env (drawn st))) (PStr (id16 env (S (drawn st)))) in
  post_project env (calls st) m = inr o ->
  default ∅ o !! "id" = None ->
  _import_project env team_id limits project curr_member st
  = _import_project_sections env "None" project limits curr_member
      {| calls := calls st ++ [PostProject m (inr o)]; drawn := S (S (drawn st)) |}.
Proof.
  intros m Ho Hid. unfold _import_project. munfold. cbn [calls drawn].
  fold m. rewrite Ho. unfold get. unfold record in *. rewrite Hid. reflexivity.
Qed.

(** C5, as the code behaves.  A source due date reaches the task model
    as it is, wrapped but not converted. *)
Theorem task_due_at_not_converted (nt_project_id : string) (author_id i a sec : pyval) :
  let task : record := {[ "due_at" := PStr "2024-01-01T00:00:00Z" ]} in
  task_due_at (task_model nt_project_id author_id task i a sec)
  = MWrap TimestampNullable (PStr "2024-01-01T00:00:00Z")
  /\ task_due_at (task_model nt_project_id author_id task i a sec)
     <> MWrap TimestampNullable (PInt 1704067200000).
Proof.
  intros task.
  assert (E : task_due_at (task_model nt_project_id author_id task i a sec)
              = MWrap TimestampNullable (PStr "2024-01-01T00:00:00Z")).
  { rewrite task_due_at_raw. subst task. unfold get, record.
    rewrite lookup_singleton_eq. reflexivity. }
  split; [exact E | rewrite E; discriminate].
Qed.

(** C6, amended.  With both credentials, [run_import] returns [None]
    when [_import_data] completes, returns the exception when
    [_import_data] raises one of the two handled classes, and lets
    any other exception through. *)
Theorem run_import_outcome (c c' : Ascii.ascii) (t k team_id : string) (st : state) :
  let start :=
    {| calls := calls st ++ [NewApiClient "https://api4.nozbe.com/v1/api" (String c t);
                             NewMondayClient (String c' k)];
       drawn := drawn st |} in
  run_import env (String c t) (String c' k) team_id st
  = match _import_data env team_id start with
    | (inr _, st') => (inr RetNone, st')
    | (inl e, st') => if handled e then (inr (RetExc e), st') else (inl e, st')
    end.
Proof.
  intros start. unfold run_import. simpl.
  unfold mbind, M_bind, bind, try_except, construct. simpl.
  rewrite <- app_assoc. simpl. fold start.
  destruct (_import_data env team_id start) as [[e|[]] st']; [|reflexivity].
  destruct (handled e); reflexivity.
Qed.

(** A position that [float] rejects makes the section mapping fail. *)
Lemma section_model_not_numeric (nt_project_id : string) (section : record)
    (i : pyval) (s : string) :
  get section "position" = PStr s -> s <> "" -> float_of_string s = None ->
  section_model nt_project_id section i = inl ValueError.
Proof.
  intros Hp Hs Hf. unfold section_model, py_or. rewrite Hp. simpl.
  destruct (String.eqb_spec s ""); [contradiction|]. simpl. rewrite Hf. reflexivity.
Qed.

End Failures.

(** * The properties on the concrete world *)

Section Examples.
Import Demo.
#[local] Existing Instance Demo.int_floats.

(** With no open project allowed, the public board is not created. *)
Lemma projects_open_quota_witness :
  (_import_data no_quota "team" start).1 = inl (QuotaExceeded "projects_open" 0).
Proof.
  exact (f_equal fst
    (proj2 (projects_open_quota_checked_first no_quota "team" start)
       (fun _ => 0) (PStr "member") [board] []
       eq_refl eq_refl eq_refl eq_refl eq_refl)).
Defined.

(** The three updates, listed third, first, second. *)
Lemma comments_order_witness :
  let d := [(1704240000 # 1, third); (1704067200 # 1, first); (1704153600 # 1, second)] in
  monday_comments healthy [] (PStr "i1") = inr [third; first; second]
  /\ sort_by key_lt d
     = [(1704067200 # 1, first); (1704153600 # 1, second); (1704240000 # 1, third)]
  /\ Sorted key_le (sort_by key_lt d).
Proof.
  intros d. split; [reflexivity|]. split; [reflexivity|].
  exact (proj1 (proj2
    (comments_submitted_in_creation_order healthy "t1" (PStr "i1") start
       [third; first; second] d eq_refl eq_refl))).
Defined.

(** The archived group [Doing]. *)
Lemma section_model_witness :
  let m := {| section_id := MWrap Id16ReadOnly (PStr "id0");
              section_project_id := MWrap Id16 (PStr "p1");
              section_name := MWrap Name (PStr "Doing");
              section_created_at := MWrap TimestampReadOnly (PInt 1);
              section_archived_at := MWrap TimestampReadOnly (PInt 1);
              section_position := MRaw (PFloat (131072 : float)) |} in
  section_model "p1" doing (PStr "id0") = inr m
  /\ section_archived_at m = MWrap TimestampReadOnly (PInt 1).
Proof.
  intros m. split; [reflexivity|].
  exact (proj2 (section_model_position_archived "p1" doing (PStr "id0") m eq_refl)).
Defined.

(** The refused project: its sections are imported all the same. *)
Lemma project_without_id_witness :
  _import_project project_refused "team" no_limit board (PStr "member") start
  = _import_project_sections project_refused "None" board no_limit (PStr "member")
      {| calls := [PostProject (project_model "team" board (PStr "id0") (PStr "id1"))
                               (inr None)];
         drawn := 2 |}.
Proof.
  exact (project_without_id_not_skipped project_refused "team" no_limit board
           (PStr "member") start None eq_refl eq_refl).
Defined.

(** C6, refuted as stated: a group whose position is not a number, or
    an update whose creation time is not a date, makes [run_import]
    raise [ValueError] instead of returning. *)
Lemma run_import_lets_value_error_escape :
  (run_import odd_position "token" "key" "team" start).1 = inl ValueError
  /\ (run_import odd_timestamp "token" "key" "team" start).1 = inl ValueError
  /\ ~ exists v, (run_import odd_position "token" "key" "team" start).1 = inr v.
Proof.
  assert (E : (run_import odd_position "token" "key" "team" start).1 = inl ValueError)
    by (vm_compute; reflexivity).
  split; [exact E|]. split; [vm_compute; reflexivity|].
  intros [v Hv]. rewrite E in Hv. discriminate Hv.
Qed.

End Examples.

(** * Further properties of the pipeline *)

(** ** Classes of events *)

Section EventClasses.
Context `{PyFloat}.

(** The events of the comment stage of a task. *)
Definition comment_event (e : event) : Prop :=
  match e with
  | MondayComments _ _ | PostComment _ _ => True
  | _ => False
  end.

(** The events of the task stage of a project, comments included. *)
Definition task_stage_event (e : event) : Prop :=
  match e with
  | MondayTasks _ _ | PostTask _ _ | MondayComments _ _ | PostComment _ _ => True
  | _ => False
  end.

(** The events below the creation of a project. *)
Definition below_project (e : event) : Prop :=
  match e with
  | MondaySections _ _ | PostProjectSection _ _
  | MondayTasks _ _ | PostTask _ _ | MondayComments _ _ | PostComment _ _ => True
  | CheckLimits category _ _ => category = "project_sections"
  | _ => False
  end.

Definition is_post_section (e : event) : Prop :=
  match e with PostProjectSection _ _ => True | _ => False end.


(** [e], if it creates a section or a task, creates it in the
    destination project [nt_project_id]. *)
Definition in_project (nt_project_id : string) (e : event) : Prop :=
  match e with
  | PostProjectSection m _ => section_project_id m = MWrap Id16 (PStr nt_project_id)
  | PostTask m _ => task_project_id m = MWrap ProjectId (PStr nt_project_id)
  | _ => True
  end.

(** [e], if it creates a comment, creates it on the task [nt_task_id]. *)
Definition on_task (nt_task_id : string) (e : event) : Prop :=
  match e with
  | PostComment m _ => comment_task_id m = MWrap Id16 (PStr nt_task_id)
  | _ => comment_event e
  end.

Lemma grows_lift_bind {A B} (P : event -> Prop) (r : answer A) (k : A -> M B) :
  (forall a, r = inr a -> grows P (k a)) -> grows P (lift r ≫= k).
Proof.
  intros Hk st. munfold. destruct r as [e|a].
  - exists []. simpl. rewrite app_nil_r. auto.
  - exact (Hk a eq_refl st).
Qed.

(** A call followed by a continuation: the call is the first event. *)
Lemma call_first {A B} (P : event -> Prop) (o : trace -> answer A) ev
    (k : A -> M B) (st : state) :
  (forall a, grows P (k a)) ->
  exists evs, calls ((call o ev ≫= k) st).2 = calls st ++ ev (o (calls st)) :: evs
              /\ Forall P evs.
Proof.
  intros Hk. munfold. simpl. destruct (o (calls st)) as [e|a]; simpl.
  - exists []. auto.
  - destruct (Hk a {| calls := calls st ++ [ev (inr a)]; drawn := drawn st |})
      as (evs & E & F).
    exists evs. rewrite E. simpl. rewrite <- app_assoc. auto.
Qed.

End EventClasses.

Ltac grows_auto lemmas :=
  repeat first [ lemmas | grows_step
               | apply grows_call; intros ?; exact eq_refl ].

Section Stages.
Context `{PyFloat} (env : Env).

Lemma import_comments_only nt_task_id tr_task_id :
  grows comment_event (_import_comments env nt_task_id tr_task_id).
Proof. unfold _import_comments, import_comment. repeat grows_step. Qed.

Lemma import_tasks_only d m_project_id nt_project_id author_id :
  grows task_stage_event (_import_tasks env d m_project_id nt_project_id author_id).
Proof.
  unfold _import_tasks, import_task.
  repeat first
    [ apply (grows_weaken comment_event);
        [intros []; simpl; tauto | apply import_comments_only]
    | grows_step ].
Qed.

Lemma import_sections_below nt_project_id sections d :
  grows below_project (import_sections env nt_project_id sections d).
Proof.
  revert d. induction sections as [|s l IH]; intros d; simpl.
  - apply grows_ret.
  - apply grows_bind; [|auto]. unfold import_section. repeat grows_step.
Qed.

Lemma import_project_sections_below nt_project_id project limits curr_member :
  grows below_project
    (_import_project_sections env nt_project_id project limits curr_member).
Proof.
  unfold _import_project_sections.
  repeat first
    [ apply import_sections_below
    | apply (grows_weaken task_stage_event);
        [intros []; simpl; tauto | apply import_tasks_only]
    | grows_step ].
Qed.

End Stages.

(** ** One project *)

Section OneProject.
Context `{PyFloat} (env : Env).

(** The section stage always begins by fetching the sections. *)
Lemma import_project_sections_first (nt_project_id : string) (project : record)
    (limits : string -> Z) (curr_member : pyval) (st : state) :
  exists evs,
    calls (_import_project_sections env nt_project_id project limits curr_member st).2
    = calls st
      ++ MondaySections (get project "id")
           (monday_sections env (calls st) (get project "id")) :: evs
    /\ Forall below_project evs.
Proof.
  unfold _import_project_sections.
  apply (call_first below_project
           (fun tr => monday_sections env tr (get project "id"))
           (MondaySections (get project "id")) _ st).
  intros sections.
  repeat first
    [ apply import_sections_below
    | apply (grows_weaken task_stage_event);
        [intros []; simpl; tauto | apply import_tasks_only]
    | grows_step ].
Qed.

(** X1. The subtree of a project is skipped exactly when the id of
    the created project renders as the empty text: the creation call
    is then the only event of [_import_project]. *)
Theorem import_project_skips_iff_empty_id (team_id : string) (limits : string -> Z)
    (project : record) (curr_member : pyval) (st : state) (o : option record) :
  let m := project_model team_id project
             (PStr (id16 env (drawn st))) (PStr (id16 env (S (drawn st)))) in
  post_project env (calls st) m = inr o ->
  calls (_import_project env team_id limits project curr_member st).2
  = calls st ++ [PostProject m (inr o)]
  <-> py_str env (get (default ∅ o) "id") = "".
Proof.
  intros m Ho. unfold _import_project. munfold. cbn [calls drawn].
  fold m. rewrite Ho.
  destruct (String.eqb_spec (py_str env (get (default ∅ o) "id")) "") as [E|E].
  - split; [intros _; exact E | reflexivity].
  - split; [|contradiction]. intros Hc. exfalso.
    match goal with
    | _ : calls (_import_project_sections env ?i project limits curr_member ?s).2 = _ |- _ =>
        destruct (import_project_sections_first i project limits curr_member s)
          as (evs & Ec & _)
    end.
    rewrite Ec in Hc. cbn [calls] in Hc. rewrite <- app_assoc in Hc.
    apply app_inv_head in Hc. discriminate Hc.
Qed.

(** X2. A project is created before anything of its subtree: the
    first event of [_import_project] is the creation of the project,
    and every later event belongs to the stages below it. *)
Theorem import_project_creates_parent_first (team_id : string) (limits : string -> Z)
    (project : record) (curr_member : pyval) (st : state) :
  exists m r evs,
    calls (_import_project env team_id limits project curr_member st).2
    = calls st ++ PostProject m r :: evs
    /\ Forall below_project evs.
Proof.
  unfold _import_project.
  unfold mbind at 1 2, M_bind at 1 2, bind at 1 2, new_id. cbn [calls drawn].
  set (m := project_model _ _ _ _).
  set (st2 := {| calls := calls st; drawn := S (S (drawn st)) |}).
  destruct (call_first below_project (fun tr => post_project env tr m) (PostProject m)
    (fun r =>
       let nt_project := default ∅ r in
       let nt_project_id := py_str env (get nt_project "id") in
       if String.eqb nt_project_id "" then mret tt
       else _import_project_sections env nt_project_id project limits curr_member) st2)
    as (evs & E & F).
  { intros r. cbv zeta. destruct (String.eqb _ _);
      [apply grows_ret | apply import_project_sections_below]. }
  exists m, (post_project env (calls st) m), evs. split; [exact E | exact F].
Qed.

End OneProject.

(** ** The section stage *)

Section SectionStage.
Context `{PyFloat} (env : Env).

(** X3. When a project has more sections than the cap of
    ["project_sections"], the section stage raises QuotaExceeded
    right after fetching them: no section is created and the tasks
    are not fetched. *)
Theorem project_sections_quota_exceeded (nt_project_id : string) (project : record)
    (limits : string -> Z) (curr_member : pyval) (st : state) (sections : list record) :
  let n := Z.of_nat (length sections) in
  let quota := QuotaExceeded "project_sections" (limits "project_sections") in
  monday_sections env (calls st) (get project "id") = inr sections ->
  limits "project_sections" < n ->
  _import_project_sections env nt_project_id project limits curr_member st
  = (inl quota,
     {| calls := calls st ++ [MondaySections (get project "id") (inr sections);
                              CheckLimits "project_sections" n (inl quota)];
        drawn := drawn st |}).
Proof.
  intros n quota Hs Hcap. unfold _import_project_sections. munfold. cbn [calls drawn].
  rewrite Hs. cbn [calls drawn]. unfold check_limits. fold n.
  destruct (Z.ltb_spec (limits "project_sections") n); [|lia].
  rewrite <- app_assoc. reflexivity.
Qed.

Lemma import_section_events (nt_project_id : string) (d : gmap pykey string)
    (s : record) (st : state) :
  exists evs, calls (import_section env nt_project_id d s st).2 = calls st ++ evs
    /\ Forall is_post_section evs /\ (length evs <= 1)%nat.
Proof.
  unfold import_section. munfold. cbn [calls drawn].
  destruct (section_model nt_project_id s _) as [e|m].
  - exists []. simpl. rewrite app_nil_r. repeat split; [constructor | lia].
  - exists [PostProjectSection m (post_project_section env (calls st) m)].
    split; [|split; [repeat constructor | simpl; lia]].
    destruct (post_project_section env (calls st) m) as [e|[o|]]; reflexivity.
Qed.

Lemma import_sections_events (nt_project_id : string) (sections : list record)
    (d : gmap pykey string) (st : state) :
  exists evs, calls (import_sections env nt_project_id sections d st).2 = calls st ++ evs
    /\ Forall is_post_section evs /\ (length evs <= length sections)%nat.
Proof.
  revert d st. induction sections as [|s rest IH]; intros d st; cbn [import_sections].
  - exists []. simpl. rewrite app_nil_r. repeat split; [constructor | lia].
  - unfold mbind, M_bind, bind.
    destruct (import_section_events nt_project_id d s st) as (e1 & E1 & F1 & L1).
    destruct (import_section env nt_project_id d s st) as [[e|d1] st1]; cbn [snd] in *.
    + exists e1. repeat split; [exact E1 | exact F1 | simpl; lia].
    + destruct (IH d1 st1) as (e2 & E2 & F2 & L2).
      exists (e1 ++ e2). rewrite E2, E1, app_assoc. repeat split.
      * apply Forall_app; auto.
      * rewrite length_app. simpl. lia.
Qed.

(** X4. Within the cap, the section stage runs in this order: the
    fetch of the sections, the check, at most one creation call per
    section, and only then the task stage; no section is created
    once the tasks are being imported. *)
Theorem sections_created_before_tasks (nt_project_id : string) (project : record)
    (limits : string -> Z) (curr_member : pyval) (st : state) (sections : list record) :
  let n := Z.of_nat (length sections) in
  monday_sections env (calls st) (get project "id") = inr sections ->
  n <= limits "project_sections" ->
  exists created rest,
    calls (_import_project_sections env nt_project_id project limits curr_member st).2
    = calls st ++ [MondaySections (get project "id") (inr sections);
                   CheckLimits "project_sections" n (inr tt)] ++ created ++ rest
    /\ Forall is_post_section created
    /\ (length created <= length sections)%nat
    /\ Forall task_stage_event rest.
Proof.
  intros n Hs Hcap. unfold _import_project_sections. munfold. cbn [calls drawn].
  rewrite Hs. cbn [calls drawn]. unfold check_limits. fold n.
  destruct (Z.ltb_spec (limits "project_sections") n); [lia|]. cbn [calls drawn].
  match goal with
  | |- context [import_sections env nt_project_id sections ∅ ?s] =>
      destruct (import_sections_events nt_project_id sections ∅ s) as (e1 & E1 & F1 & L1);
      destruct (import_sections env nt_project_id sections ∅ s) as [[e|d] st1]
  end; cbn [snd calls] in *.
  - exists e1, []. rewrite E1, app_nil_r, <- !app_assoc. repeat split; auto.
  - destruct (import_tasks_only env d (get project "id") nt_project_id curr_member st1)
      as (e2 & E2 & F2).
    exists e1, e2. rewrite E2, E1, <- !app_assoc. repeat split; auto.
Qed.

Lemma section_model_project_id (nt_project_id : string) (s : record) (i : pyval)
    (m : ProjectSection) :
  section_model nt_project_id s i = inr m ->
  section_project_id m = MWrap Id16 (PStr nt_project_id).
Proof.
  unfold section_model. destruct (py_float _); [discriminate|]. intros [= <-]. reflexivity.
Qed.

Lemma task_model_project_id (nt_project_id : string) (author_id : pyval)
    (task : record) (i a sec : pyval) :
  task_project_id (task_model nt_project_id author_id task i a sec)
  = MWrap ProjectId (PStr nt_project_id).
Proof. unfold task_model. destruct (task_due task author_id). reflexivity. Qed.

(** X5. Every section and every task created by the section stage of
    a project is created in that project: it carries the destination
    id the stage was given. *)
Theorem children_carry_project_id (nt_project_id : string) (project : record)
    (limits : string -> Z) (curr_member : pyval) (st : state) :
  exists new,
    calls (_import_project_sections env nt_project_id project limits curr_member st).2
    = calls st ++ new
    /\ Forall (in_project nt_project_id) new.
Proof.
  revert st. change (grows (in_project nt_project_id)
    (_import_project_sections env nt_project_id project limits curr_member)).
  assert (Hsec : forall sections d,
    grows (in_project nt_project_id) (import_sections env nt_project_id sections d)).
  { induction sections as [|s l IH]; intros d; simpl; [apply grows_ret|].
    apply grows_bind; [|auto]. unfold import_section.
    apply grows_bind; [apply grows_new_id|]. intros i.
    apply grows_lift_bind. intros m Hm.
    apply grows_bind.
    - apply grows_call. intros r. simpl. eapply section_model_project_id, Hm.
    - intros [o|]; [apply grows_lift | apply grows_ret]. }
  unfold _import_project_sections, _import_tasks, import_task.
  repeat first
    [ apply Hsec
    | apply (grows_weaken comment_event);
        [intros []; simpl; tauto | apply import_comments_only]
    | apply grows_call; intros ?; apply task_model_project_id
    | grows_step ].
Qed.

(** X6. A section created without an ["id"] is still recorded: its
    entry in the identifier map is the text ["None"]. *)
Theorem section_without_id_recorded_as_None (nt_project_id : string)
    (d : gmap pykey string) (s created : record) (st : state)
    (m : ProjectSection) (k : pykey) :
  section_model nt_project_id s (PStr (id16 env (drawn st))) = inr m ->
  post_project_section env (calls st) m = inr (Some created) ->
  created !! "id" = None ->
  py_key (get s "id") = Some k ->
  exists st',
    import_section env nt_project_id d s st = (inr (<[k := "None"]> d), st')
    /\ dict_get (<[k := "None"]> d) (get s "id") = inr (PStr "None").
Proof.
  intros Hm Ho Hid Hk.
  assert (Hg : get created "id" = PNone)
    by (unfold get, record in *; rewrite Hid; reflexivity).
  unfold import_section, dict_set, dict_get. munfold.
  cbn [calls drawn]. rewrite Hm, Ho, Hk, Hg. simpl. eexists. split; [reflexivity|].
  rewrite lookup_insert_eq. reflexivity.
Qed.

End SectionStage.

(** ** The task and comment stages *)

Section TaskStage.
Context `{PyFloat} (env : Env).

(** X7. A task whose creation answers nothing is passed over: its
    comments are not fetched, the loop turn ends normally and the
    creation call is its only event. *)
Theorem task_not_created_is_skipped (d : gmap pykey string) (nt_project_id : string)
    (author_id : pyval) (task : record) (st : state) (sec : pyval) :
  let m := task_model nt_project_id author_id task
             (PStr (id16 env (drawn st))) (PStr (id16 env (S (drawn st)))) sec in
  dict_get d (get task "group") = inr sec ->
  post_task env (calls st) m = inr None ->
  import_task env d nt_project_id author_id task st
  = (inr tt, {| calls := calls st ++ [PostTask m (inr None)];
                drawn := S (S (drawn st)) |}).
Proof.
  intros m Hsec Ho. unfold import_task. munfold. cbn [calls drawn].
  rewrite Hsec. fold m. rewrite Ho. reflexivity.
Qed.

Lemma import_comments_on_task (nt_task_id : string) (tr_task_id : pyval) :
  grows (on_task nt_task_id) (_import_comments env nt_task_id tr_task_id).
Proof.
  unfold _import_comments, import_comment.
  repeat first [ apply grows_call; intros ?; reflexivity | grows_step ].
Qed.

(** X8. The comments of a created task are fetched by the source id
    of the task and created on the destination task that was just
    returned: each carries [str] of its id. *)
Theorem comments_carry_task_id (d : gmap pykey string) (nt_project_id : string)
    (author_id : pyval) (task : record) (st : state) (sec nt_task_id : pyval) :
  let m := task_model nt_project_id author_id task
             (PStr (id16 env (drawn st))) (PStr (id16 env (S (drawn st)))) sec in
  let posted := calls st ++ [PostTask m (inr (Some nt_task_id))] in
  dict_get d (get task "group") = inr sec ->
  post_task env (calls st) m = inr (Some nt_task_id) ->
  exists evs,
    calls (import_task env d nt_project_id author_id task st).2
    = posted ++ MondayComments (get task "id")
                  (monday_comments env posted (get task "id")) :: evs
    /\ Forall (on_task (py_str env nt_task_id)) evs.
Proof.
  intros m posted Hsec Ho. unfold import_task. munfold. cbn [calls drawn].
  rewrite Hsec. fold m. rewrite Ho. fold posted.
  unfold _import_comments.
  apply (call_first (on_task (py_str env nt_task_id))
           (fun tr => monday_comments env tr (get task "id"))
           (MondayComments (get task "id")) _
           {| calls := posted; drawn := S (S (drawn st)) |}).
  intros comments. unfold import_comment.
  repeat first [ apply grows_call; intros ?; reflexivity | grows_step ].
Qed.

(** X9. When the creation time of one comment of a task does not
    parse, no comment of that task is submitted, not even those
    whose time parses: the exception leaves the stage right after
    the fetch. *)
Theorem unparsable_comment_time_submits_nothing (nt_task_id : string)
    (tr_task_id : pyval) (st : state) (cs : list record) (e : exn) :
  monday_comments env (calls st) tr_task_id = inr cs ->
  decorate (created_at_key env) cs = inl e ->
  _import_comments env nt_task_id tr_task_id st
  = (inl e, {| calls := calls st ++ [MondayComments tr_task_id (inr cs)];
               drawn := drawn st |}).
Proof.
  intros Hcs Hd. unfold _import_comments, py_sorted. munfold. cbn [calls drawn].
  rewrite Hcs, Hd. reflexivity.
Qed.

(** The decoration fails as soon as one key does. *)
Lemma decorate_fails {A} (key : A -> answer Q) (l1 l2 : list A) (x : A) (e : exn) :
  Forall (fun y => exists k, key y = inr k) l1 -> key x = inl e ->
  decorate key (l1 ++ x :: l2) = inl e.
Proof.
  intros Hl Hx. induction Hl as [|y l1 [k Hy] _ IH]; simpl.
  - rewrite Hx. reflexivity.
  - rewrite Hy, IH. reflexivity.
Qed.

(** X10. An exception raised by the submission of a comment ends the
    loop: the comments after it are not submitted, and the
    exception is the result. *)
Theorem comment_failure_stops_the_loop (nt_task_id : string) (l1 l2 : list record)
    (c : record) (st : state) (e : exn) :
  let run := for_each (l1 ++ c :: l2) (import_comment env nt_task_id) st in
  let before := for_each l1 (import_comment env nt_task_id) st in
  before.1 = inr tt ->
  post_comment env (calls before.2)
    (comment_model nt_task_id c (PStr (id16 env (drawn before.2)))
                                (PStr (id16 env (S (drawn before.2))))) = inl e ->
  run.1 = inl e
  /\ exists evs ev,
       calls run.2 = calls st ++ evs ++ [ev]
       /\ length evs = length l1
       /\ posts_comment nt_task_id c ev.
Proof.
  cbv zeta. revert st. induction l1 as [|c1 l1 IH]; intros st Hb He.
  - cbn [app for_each] in *. unfold bind, import_comment. munfold.
    cbn [fst snd calls drawn] in *.
    rewrite He. split; [reflexivity|].
    eexists [], _. split; [reflexivity|]. split; [reflexivity|].
    eexists _, _, _. reflexivity.
  - cbn [app for_each] in *. unfold bind in *.
    destruct (import_comment_run env nt_task_id c1 st) as (ev1 & r & Hev & E1).
    rewrite E1 in *. destruct r as [e1|[]]; cbn beta iota in *; [discriminate Hb|].
    destruct (IH _ Hb He) as (Hr & evs & ev & Ec & Hl & Hp).
    split; [exact Hr|]. exists (ev1 :: evs), ev.
    rewrite Ec. cbn [calls]. rewrite <- !app_assoc. simpl.
    repeat split; [f_equal; exact Hl | exact Hp].
Qed.

(** X11. Comments that are already listed in creation order are
    submitted in the order of the listing. *)
Theorem sorted_comments_keep_their_order {A} (d : list (Q * A)) :
  Sorted key_le d -> sort_by key_lt d = d.
Proof.
  induction 1 as [|x l Hs IH Hhd]; [reflexivity|].
  change (sort_by key_lt (x :: l)) with (insert_by key_lt x (sort_by key_lt l)).
  rewrite IH. destruct Hhd as [|y l' Hxy]; [reflexivity|]. simpl.
  unfold key_lt, Qltb, key_le in *. apply Qle_bool_iff in Hxy. rewrite Hxy. reflexivity.
Qed.

(** X12. A task whose group is a list or a dict is never submitted:
    the lookup in the identifier map raises [TypeError]. *)
Theorem unhashable_group_raises (d : gmap pykey string) (nt_project_id : string)
    (author_id : pyval) (task : record) (st : state) :
  py_key (get task "group") = None ->
  import_task env d nt_project_id author_id task st
  = (inl TypeError, {| calls := calls st; drawn := S (S (drawn st)) |}).
Proof.
  intros Hk. unfold import_task, dict_get. munfold. cbn [calls drawn].
  rewrite Hk. reflexivity.
Qed.

End TaskStage.

(** ** The whole run *)

Section WholeRun.
Context `{PyFloat} (env : Env).

(** X13. With no source project, [_import_data] creates nothing, and
    its result is the result of the check of the open projects the
    team already has: an empty import fails when the team is over
    the cap. *)
Theorem nothing_to_import (team_id : string) (st : state)
    (limits : string -> Z) (member : pyval) (ntp : list record) :
  let e1 := NtLimits team_id (inr limits) in
  let e2 := CurrentNtMember (inr member) in
  let e3 := MondayProjects (inr []) in
  let e4 := ProjectsPerTeam team_id (inr ntp) in
  let n := Z.of_nat (length (filter (fun elt => open_without_end elt = true) ntp)) in
  let checked := check_limits limits "projects_open" n in
  nt_limits env (calls st) team_id = inr limits ->
  current_nt_member env (calls st ++ [e1]) = inr member ->
  monday_projects env (calls st ++ [e1; e2]) = inr [] ->
  get_projects_per_team env (calls st ++ [e1; e2; e3]) team_id = inr ntp ->
  _import_data env team_id st
  = (checked,
     {| calls := calls st ++ [e1; e2; e3; e4; CheckLimits "projects_open" n checked];
        drawn := drawn st |}).
Proof.
  intros e1 e2 e3 e4 n checked H1 H2 H3 H4.
  rewrite (import_data_checked env team_id st limits member [] ntp H1 H2 H3 H4).
  unfold projected_open_count. rewrite filter_nil. cbn [length]. rewrite Z.add_0_l.
  fold n. fold checked. destruct checked as [e|[]]; reflexivity.
Qed.


Lemma for_each_app {A} (l1 l2 : list A) (body : A -> M unit) (st : state) :
  for_each (l1 ++ l2) body st
  = match for_each l1 body st with
    | (inr _, st1) => for_each l2 body st1
    | (inl e, st1) => (inl e, st1)
    end.
Proof.
  revert st. induction l1 as [|x l1 IH]; intros st; [reflexivity|].
  cbn [app for_each]. unfold bind.
  destruct (body x st) as [[e|[]] st1]; [reflexivity | apply IH].
Qed.

End WholeRun.

(** ** What the loops submit *)

Section Loops.
Context `{PyFloat} (env : Env).

(** The tasks, and the projects, that a list of events creates. *)
Definition posted_task (e : event) : option Task :=
  match e with PostTask m _ => Some m | _ => None end.


(** A loop whose turn either raises before creating anything or
    creates exactly one entity, related to the element by [R]: the
    entities created are, in order, those of the elements the loop
    reached, and of all the elements when the loop completes. *)
Lemma for_each_posts {A B} (body : A -> M unit) (posted : event -> option B)
    (R : A -> B -> Prop) :
  (forall x st, exists evs,
     calls (body x st).2 = calls st ++ evs
     /\ ((omap posted evs = [] /\ exists e, (body x st).1 = inl e)
         \/ exists b, omap posted evs = [b] /\ R x b)) ->
  forall l st, exists n evs,
    calls (for_each l body st).2 = calls st ++ evs
    /\ Forall2 R (take n l) (omap posted evs)
    /\ ((for_each l body st).1 = inr tt -> n = length l).
Proof.
  intros Hbody. induction l as [|x l IH]; intros st.
  - exists 0%nat, []. simpl. rewrite app_nil_r. repeat split. constructor.
  - cbn [for_each]. unfold bind.
    destruct (Hbody x st) as (e1 & E1 & Hcase).
    destruct (body x st) as [[e|[]] st1]; cbn [fst snd] in *.
    + destruct Hcase as [[Hnone _] | (b & Hone & HR)].
      * exists 0%nat, e1. rewrite Hnone. repeat split; [exact E1 | constructor | discriminate].
      * exists 1%nat, e1. rewrite Hone. repeat split; [exact E1 | | discriminate].
        simpl. rewrite take_0. repeat constructor. exact HR.
    + destruct Hcase as [[_ [e He]] | (b & Hone & HR)]; [discriminate He|].
      destruct (IH st1) as (n & e2 & E2 & F2 & Hn).
      exists (S n), (e1 ++ e2). rewrite omap_app, Hone. repeat split.
      * rewrite E2, E1, app_assoc. reflexivity.
      * simpl. constructor; [exact HR | exact F2].
      * intros Hr. simpl. f_equal. exact (Hn Hr).
Qed.

Lemma comment_events_post_no_task (evs : list event) :
  Forall comment_event evs -> omap posted_task evs = [].
Proof.
  induction 1 as [|e evs He _ IH]; [reflexivity|].
  destruct e; simpl in He; try contradiction; exact IH.
Qed.


(** The task [m] carries the section that the map [d] gives to the
    group of the source task. *)
Definition section_of_group (d : gmap pykey string) (task : record) (m : Task) : Prop :=
  exists k, py_key (get task "group") = Some k
            /\ task_project_section_id m
               = MWrap Id16Nullable (from_option PStr PNone (d !! k)).

(** One turn of the loop over the tasks. *)
Lemma import_task_turn (d : gmap pykey string) (nt_project_id : string)
    (author_id : pyval) (task : record) (st : state) :
  exists evs,
    calls (import_task env d nt_project_id author_id task st).2 = calls st ++ evs
    /\ ((omap posted_task evs = []
         /\ exists e, (import_task env d nt_project_id author_id task st).1 = inl e)
        \/ exists m, omap posted_task evs = [m] /\ section_of_group d task m).
Proof.
  destruct (py_key (get task "group")) as [k|] eqn:Hk.
  - unfold import_task, dict_get. rewrite Hk.
    unfold mbind at 1 2 3, M_bind at 1 2 3, bind at 1 2 3, new_id, lift. cbn [calls drawn].
    set (m := task_model _ _ _ _ _ _).
    destruct (call_first comment_event (fun tr => post_task env tr m) (PostTask m)
                (fun nt_task => match nt_task with
                   | Some nt_task_id =>
                       _import_comments env (py_str env nt_task_id) (get task "id")
                   | None => mret tt
                   end) {| calls := calls st; drawn := S (S (drawn st)) |})
      as (evs & E & F).
    { intros [v|]; [apply import_comments_only | apply grows_ret]. }
    eexists. split; [exact E|]. right. exists m. split.
    + cbn [omap list_omap posted_task]. rewrite (comment_events_post_no_task evs F).
      reflexivity.
    + exists k. split; [exact Hk|]. subst m. rewrite task_model_section_id.
      destruct (d !! k); reflexivity.
  - exists []. rewrite app_nil_r. unfold import_task, dict_get. rewrite Hk.
    munfold. cbn [calls drawn]. split; [reflexivity|]. left. split; [reflexivity|].
    exists TypeError. reflexivity.
Qed.

(** The task stage posts the fetched tasks in order, each with the
    section its group has in the map the stage was given. *)
Lemma import_tasks_sections (d : gmap pykey string) (m_project_id : pyval)
    (nt_project_id : string) (author_id : pyval) (st : state) (tasks : list record) :
  monday_tasks env (calls st) m_project_id = inr tasks ->
  exists n evs,
    calls (_import_tasks env d m_project_id nt_project_id author_id st).2
    = calls st ++ MondayTasks m_project_id (inr tasks) :: evs
    /\ Forall2 (section_of_group d) (take n tasks) (omap posted_task evs)
    /\ ((_import_tasks env d m_project_id nt_project_id author_id st).1 = inr tt ->
        n = length tasks).
Proof.
  intros Ht. unfold _import_tasks. munfold. cbn [calls drawn]. rewrite Ht.
  match goal with
  | |- context [for_each tasks ?body ?s] =>
      destruct (for_each_posts body posted_task (section_of_group d)
                  (import_task_turn d nt_project_id author_id) tasks s)
        as (n & evs & E & F & Hn)
  end.
  exists n, evs. repeat split; [|exact F|exact Hn].
  rewrite E. cbn [calls]. rewrite <- app_assoc. reflexivity.
Qed.

(** C4. When the sections of a project are fetched within the cap
    and all their creation calls return, the identifier map [d] that
    [_import_project_sections] has built holds an entry exactly for
    the keys of the source sections whose creation returned a
    result, the entry being the destination id of the last such
    section with that key; a section whose creation returned
    nothing adds no entry.  The stage hands that map to the task
    stage: the tasks it posts are, in order, the fetched tasks, each
    with, as [project_section_id], the entry of its group in [d], or
    [None] when there is none. *)
Theorem section_identifier_map (nt_project_id : string) (project : record)
    (limits : string -> Z) (curr_member : pyval) (st st3 : state)
    (sections tasks : list record) (d : gmap pykey string) :
  let fetched := [MondaySections (get project "id") (inr sections);
                  CheckLimits "project_sections" (Z.of_nat (length sections)) (inr tt)] in
  let st2 := {| calls := calls st ++ fetched; drawn := drawn st |} in
  let run := _import_project_sections env nt_project_id project limits curr_member st in
  monday_sections env (calls st) (get project "id") = inr sections ->
  Z.of_nat (length sections) <= limits "project_sections" ->
  import_sections env nt_project_id sections ∅ st2 = (inr d, st3) ->
  monday_tasks env (calls st3) (get project "id") = inr tasks ->
  (exists srs evs,
     srs.*1 = sections
     /\ calls st3 = calls st2 ++ evs
     /\ Forall2 (fun sr ev => posts_section nt_project_id sr.1 sr.2 ev) srs evs
     /\ (forall k, d !! k = mapping_entry env k srs)
     /\ (forall k, is_Some (d !! k)
                   <-> exists s created,
                         (s, Some created) ∈ srs /\ py_key (get s "id") = Some k))
  /\ run = _import_tasks env d (get project "id") nt_project_id curr_member st3
  /\ exists n evs,
       calls run.2 = calls st3 ++ MondayTasks (get project "id") (inr tasks) :: evs
       /\ Forall2 (section_of_group d) (take n tasks) (omap posted_task evs)
       /\ (run.1 = inr tt -> n = length tasks).
Proof.
  intros fetched st2 run Hs Hcap Hrun Ht.
  assert (Erun : run = _import_tasks env d (get project "id") nt_project_id curr_member st3).
  { subst run. unfold _import_project_sections. munfold. cbn [calls drawn].
    rewrite Hs. cbn [calls drawn]. unfold check_limits.
    destruct (Z.ltb_spec (limits "project_sections") (Z.of_nat (length sections))); [lia|].
    cbn [calls drawn]. rewrite <- app_assoc. cbn [app].
    fold fetched. fold st2. rewrite Hrun. reflexivity. }
  split; [|split; [exact Erun|]].
  - apply import_sections_mapping in Hrun as (srs & evs & Hsrs & Ec & F & Hd).
    assert (Hd' : forall k, d !! k = mapping_entry env k srs).
    { intros k. rewrite Hd, lookup_empty. destruct (mapping_entry env k srs); reflexivity. }
    exists srs, evs. repeat split; try assumption.
    + rewrite Hd'. apply mapping_entry_is_Some.
    + rewrite Hd'. apply mapping_entry_is_Some.
  - rewrite Erun. apply import_tasks_sections. exact Ht.
Qed.




End Loops.

(** * The further properties on the concrete world *)

Section MoreExamples.
Import Demo.
#[local] Existing Instance Demo.int_floats.

(** At most two sections per project. *)
Definition two_sections : string -> Z :=
  fun category => if String.eqb category "project_sections" then 2 else 1000.

(** Sections are created without an id, tasks are not created. *)
Definition bare : Env :=
  world [board] (of_board [todo]) (of_board [write]) (of_item [first])
        (fun _ => created "p1") (fun _ => Some (obj [])) (fun _ => None)
        no_limit [].

(** The submission of the second update is refused. *)
Definition second_refused : Env := {|
  id16 := id16 healthy;
  nt_limits := nt_limits healthy;
  current_nt_member := current_nt_member healthy;
  get_projects_per_team := get_projects_per_team healthy;
  monday_projects := monday_projects healthy;
  monday_sections := monday_sections healthy;
  monday_tasks := monday_tasks healthy;
  monday_comments := monday_comments healthy;
  post_project := post_project healthy;
  post_project_section := post_project_section healthy;
  post_task := post_task healthy;
  post_comment := fun _ m =>
    match comment_body m with
    | MRaw (PStr "second") => inl (OpenApiException "refused")
    | _ => inr tt
    end;
  isoparse_timestamp := isoparse_timestamp healthy;
  py_repr := py_repr healthy
|}.

(** An item whose group is a list. *)
Definition stray : record :=
  obj [("id", PStr "i9"); ("name", PStr "Stray"); ("group", PList [])].

(** A source without boards, a team with one open project. *)
Definition empty_source : Env :=
  world [] (of_board []) (of_board []) (of_item [])
        (fun _ => created "p1") section_unless_doing (fun _ => Some (PStr "t1"))
        (fun _ => 0) [obj [("is_open", PBool true)]].

Lemma import_project_skips_witness :
  calls (_import_project project_refused "team" no_limit board (PStr "member") start).2
  = [PostProject (project_model "team" board (PStr "id0") (PStr "id1")) (inr None)]
  <-> "None" = "".
Proof.
  exact (import_project_skips_iff_empty_id project_refused "team" no_limit board
           (PStr "member") start None eq_refl).
Defined.

Lemma project_sections_quota_witness :
  (_import_project_sections healthy "p1" board two_sections (PStr "member") start).1
  = inl (QuotaExceeded "project_sections" 2).
Proof.
  exact (f_equal fst
    (project_sections_quota_exceeded healthy "p1" board two_sections (PStr "member")
       start [todo; doing; done] eq_refl eq_refl)).
Defined.

Lemma sections_before_tasks_witness :
  exists created rest,
    calls (_import_project_sections healthy "p1" board no_limit (PStr "member") start).2
    = [MondaySections (PStr "b1") (inr [todo; doing; done]);
       CheckLimits "project_sections" 3 (inr tt)] ++ created ++ rest
    /\ Forall is_post_section created
    /\ (length created <= 3)%nat
    /\ Forall task_stage_event rest.
Proof.
  exact (sections_created_before_tasks healthy "p1" board no_limit (PStr "member")
           start [todo; doing; done] eq_refl ltac:(vm_compute; discriminate)).
Defined.

Lemma section_without_id_witness :
  exists st',
    import_section bare "p1" ∅ todo start = (inr {[ KStr "g1" := "None" ]}, st')
    /\ dict_get ({[ KStr "g1" := "None" ]} : gmap pykey string) (get todo "id")
       = inr (PStr "None").
Proof.
  exact (section_without_id_recorded_as_None bare "p1" ∅ todo (obj []) start _
           (KStr "g1") eq_refl eq_refl eq_refl eq_refl).
Defined.

Lemma task_not_created_witness :
  (import_task bare ∅ "p1" (PStr "member") write start).1 = inr tt.
Proof.
  exact (f_equal fst
    (task_not_created_is_skipped bare ∅ "p1" (PStr "member") write start PNone
       eq_refl eq_refl)).
Defined.

Lemma comments_carry_task_id_witness :
  exists m evs,
    calls (import_task healthy ∅ "p1" (PStr "member") write start).2
    = [PostTask m (inr (Some (PStr "t1")))]
      ++ MondayComments (PStr "i1") (inr [third; first; second]) :: evs
    /\ Forall (on_task "t1") evs.
Proof.
  eexists. exact (comments_carry_task_id healthy ∅ "p1" (PStr "member") write start
                    PNone (PStr "t1") eq_refl eq_refl).
Defined.

Lemma unparsable_comment_time_witness :
  _import_comments odd_timestamp "t1" (PStr "i1") start
  = (inl ValueError,
     {| calls := [MondayComments (PStr "i1") (inr [odd_update])]; drawn := 0 |}).
Proof.
  exact (unparsable_comment_time_submits_nothing odd_timestamp "t1" (PStr "i1") start
           [odd_update] ValueError eq_refl eq_refl).
Defined.

Lemma comment_failure_witness :
  (for_each ([first] ++ second :: [third]) (import_comment second_refused "t1") start).1
  = inl (OpenApiException "refused").
Proof.
  exact (proj1 (comment_failure_stops_the_loop second_refused "t1" [first] [third]
                  second start (OpenApiException "refused") eq_refl eq_refl)).
Defined.

Lemma sorted_comments_witness :
  sort_by key_lt [(1 # 1, first); (2 # 1, second); (2 # 1, third)]
  = [(1 # 1, first); (2 # 1, second); (2 # 1, third)].
Proof.
  apply sorted_comments_keep_their_order.
  repeat constructor; unfold key_le; simpl; intro Hc; discriminate Hc.
Defined.

Lemma unhashable_group_witness :
  import_task healthy ∅ "p1" (PStr "member") stray start
  = (inl TypeError, {| calls := []; drawn := 2 |}).
Proof.
  exact (unhashable_group_raises healthy ∅ "p1" (PStr "member") stray start eq_refl).
Defined.

Lemma nothing_to_import_witness :
  (_import_data empty_source "team" start).1 = inl (QuotaExceeded "projects_open" 0).
Proof.
  exact (f_equal fst
    (nothing_to_import empty_source "team" start (fun _ => 0) (PStr "member")
       [obj [("is_open", PBool true)]] eq_refl eq_refl eq_refl eq_refl)).
Defined.

(** The three groups, of which [Doing] is not created: the map has two
    entries, and the stage posts the item of the group [Todo] and
    the item of the group [Doing] with what the map holds for them. *)
Lemma section_identifier_map_witness :
  let st2 := {| calls := [MondaySections (PStr "b1") (inr [todo; doing; done]);
                          CheckLimits "project_sections" 3 (inr tt)];
                drawn := 0 |} in
  exists d st3 evs,
    import_sections healthy "p1" [todo; doing; done] ∅ st2 = (inr d, st3)
    /\ d !! KStr "g1" = Some "s-Todo"
    /\ d !! KStr "g2" = None
    /\ d !! KStr "g3" = Some "s-Done"
    /\ calls (_import_project_sections healthy "p1" board no_limit (PStr "member") start).2
       = calls st3 ++ MondayTasks (PStr "b1") (inr [write; review]) :: evs
    /\ Forall2 (section_of_group d) [write; review] (omap posted_task evs).
Proof.
  intros st2.
  pose (run := import_sections healthy "p1" [todo; doing; done] ∅ st2).
  assert (Hrun : run = (inr (match run.1 with inr d => d | inl _ => ∅ end), run.2))
    by (vm_compute; reflexivity).
  destruct (section_identifier_map healthy "p1" board no_limit (PStr "member")
              start run.2 [todo; doing; done] [write; review] _
              eq_refl ltac:(vm_compute; discriminate) Hrun eq_refl)
    as (_ & _ & n & evs & E & F & Hn).
  rewrite (Hn ltac:(vm_compute; reflexivity)) in F.
  eexists _, _, evs. split; [exact Hrun|].
  split; [vm_compute; reflexivity|].
  split; [vm_compute; reflexivity|].
  split; [vm_compute; reflexivity|].
  split; [exact E | exact F].
Defined.


End MoreExamples.
